(** * Stack Overflow survey 2024: the data-transform core

    A shallow embedding of [src/data_processing.py] and of the transform
    functions repeated in [src/save_visualizations_standalone.py], with the
    properties the specification states about them.

    Conventions of the embedding:
    - a Python [str] is a [string]; characters outside ASCII are carried
      along unchanged (they have no case and are not whitespace here);
    - a [float64] is a primitive binary64 [float]; its NaN is pandas'
      missing marker in numeric columns; float64 is the only numeric dtype
      of the embedding, a column of integers is carried as the float64
      column of its numbers;
    - in object columns the missing marker is [Missing] (NaN; Python's
      [None] counts as missing as well and is not told apart);
    - a Python exception is a value [Raise e] of the type [result]. *)

From Stdlib Require Import Floats ZArith Ascii.
From stdpp Require Import gmap strings list sorting.

(** ** Python values and exceptions *)

Inductive exn := AttributeError | KeyError | TypeError.

Inductive result (A : Type) :=
  | Ok (a : A)
  | Raise (e : exn).
Arguments Ok {A} a.
Arguments Raise {A} e.

Definition bind {A B} (r : result A) (k : A -> result B) : result B :=
  match r with
  | Ok a => k a
  | Raise e => Raise e
  end.

Notation "x <- r ;; k" := (bind r (fun x => k))
  (at level 100, r at next level, right associativity).

(** One cell of an object column: text, a number, or the missing marker. *)
Inductive cell :=
  | Text (s : string)
  | Num (x : float)
  | Missing.

(** ** Python [str] methods *)
Module Py.

(** [str.isspace] on one ASCII character: tab, line feed, vertical tab, form
    feed, carriage return, the four separators 0x1c-0x1f and the blank. *)
Definition is_space (c : ascii) : bool :=
  let n := nat_of_ascii c in
  ((9 <=? n) && (n <=? 13)) || ((28 <=? n) && (n <=? 32)).

Definition lower_char (c : ascii) : ascii :=
  let n := nat_of_ascii c in
  if (65 <=? n) && (n <=? 90) then ascii_of_nat (n + 32) else c.

(** [s.lower()] *)
Fixpoint lower (s : string) : string :=
  match s with
  | EmptyString => EmptyString
  | String c s' => String (lower_char c) (lower s')
  end.

Fixpoint lstrip (s : string) : string :=
  match s with
  | EmptyString => EmptyString
  | String c s' => if is_space c then lstrip s' else s
  end.

Fixpoint rstrip (s : string) : string :=
  match s with
  | EmptyString => EmptyString
  | String c s' =>
      match rstrip s' with
      | EmptyString => if is_space c then EmptyString else String c EmptyString
      | r => String c r
      end
  end.

(** [s.strip()] *)
Definition strip (s : string) : string := rstrip (lstrip s).

(** [s.startswith(p)] *)
Fixpoint startswith (p s : string) : bool :=
  match p, s with
  | EmptyString, _ => true
  | String _ _, EmptyString => false
  | String a p', String b s' => if Ascii.eqb a b then startswith p' s' else false
  end.

(** [sub in s] *)
Fixpoint contains (sub s : string) : bool :=
  startswith sub s ||
  match s with
  | EmptyString => false
  | String _ s' => contains sub s'
  end.

(** [any(x in s for x in subs)] *)
Definition any_in (subs : list string) (s : string) : bool :=
  existsb (fun x => contains x s) subs.

(** [s.replace(old, new)] for a non-empty [old] (both call sites pass a
    literal): scan from the left, replace each occurrence and resume after
    it.  [skip] counts the characters of a matched occurrence still to drop. *)
Fixpoint replace_from (old new : string) (skip : nat) (s : string) : string :=
  match s with
  | EmptyString => EmptyString
  | String c s' =>
      match skip with
      | S k => replace_from old new k s'
      | O =>
          if startswith old s
          then new +:+ replace_from old new (String.length old - 1) s'
          else String c (replace_from old new 0 s')
      end
  end.

Definition replace (old new s : string) : string := replace_from old new 0 s.

(** [s.split(sep)] for a one-character separator: the segments between the
    separators, always at least one. *)
Fixpoint split (sep : ascii) (s : string) : list string :=
  match s with
  | EmptyString => [EmptyString]
  | String c s' =>
      if Ascii.eqb c sep then EmptyString :: split sep s'
      else match split sep s' with
           | seg :: segs => String c seg :: segs
           | [] => [String c EmptyString]
           end
  end.

End Py.

(** ** The pandas operations the repository calls *)
Module pd.

(** [pd.isnull] on a scalar. *)
Definition isna (c : cell) : bool :=
  match c with
  | Missing => true
  | Num x => PrimFloat.is_nan x
  | Text _ => false
  end.

(** A column with its dtype: [object] or [float64]. *)
Inductive series :=
  | Obj (l : list cell)
  | F64 (l : list float).

(** The two dtypes by name, and the column of a given dtype that holds the
    given values (a float64 column holds numbers only, NaN where the value
    is missing). *)
Inductive dtype := object | float64.

Definition column (d : dtype) (values : list cell) : series :=
  match d with
  | object => Obj values
  | float64 => F64 (map (fun c => match c with Num x => x | _ => PrimFloat.nan end) values)
  end.

(** A table in column form, columns in their order. *)
Definition DataFrame := list (string * series).

(** [df[col]] *)
Fixpoint getitem (col : string) (df : DataFrame) : result series :=
  match df with
  | [] => Raise KeyError
  | (name, s) :: df' => if String.eqb name col then Ok s else getitem col df'
  end.

(** [df[col] = s]: overwrite the column in place, or append a new one. *)
Fixpoint setitem (col : string) (s : series) (df : DataFrame) : DataFrame :=
  match df with
  | [] => [(col, s)]
  | (name, s0) :: df' =>
      if String.eqb name col then (name, s) :: df'
      else (name, s0) :: setitem col s df'
  end.

(** The [.str] accessor: refused on a numeric column, and on an object
    column whose non-missing values are all numbers. *)
Definition str_accessor (s : series) : result (list cell) :=
  match s with
  | F64 _ => Raise AttributeError
  | Obj l =>
      let is_text c := match c with Text _ => true | _ => false end in
      let is_number c := match c with Num x => negb (PrimFloat.is_nan x) | _ => false end in
      if existsb is_text l || negb (existsb is_number l) then Ok l
      else Raise AttributeError
  end.

(** A string method applied through [.str]: values that are not text
    come out missing. *)
Definition str_map (f : string -> string) (l : list cell) : list cell :=
  map (fun c => match c with Text s => Text (f s) | _ => Missing end) l.

(** [s.str.replace(old, new, regex=False)] *)
Definition str_replace (old new : string) (s : series) : result series :=
  l <- str_accessor s ;; Ok (Obj (str_map (Py.replace old new) l)).

(** [s.str.strip()] *)
Definition str_strip (s : series) : result series :=
  l <- str_accessor s ;; Ok (Obj (str_map Py.strip l)).

(** [s.map(d)] for a dict [d]: exact-match lookup, missing when the value
    is no key of [d]. *)
Definition map_dict (d : gmap string cell) (s : series) : series :=
  let look c := match c with
                | Text k => default Missing (d !! k)
                | _ => Missing
                end in
  match s with
  | Obj l => Obj (map look l)
  | F64 l => Obj (map (fun _ => Missing) l)
  end.

(** [s.str.split(sep)]: a list of segments for text, missing otherwise. *)
Definition str_split (sep : ascii) (s : series) : result (list (option (list string))) :=
  l <- str_accessor s ;;
  Ok (map (fun c => match c with Text t => Some (Py.split sep t) | _ => None end) l).

(** [s.dropna()] *)
Definition dropna (s : series) : series :=
  match s with
  | Obj l => Obj (List.filter (fun c => negb (isna c)) l)
  | F64 l => F64 (List.filter (fun x => negb (PrimFloat.is_nan x)) l)
  end.

(** [pd.to_numeric(s, errors="coerce")], given the parser of numeric text:
    a numeric column is returned as it is, and in an object column text that
    is no number becomes missing.  The result is carried at float64, the one
    numeric dtype of this embedding; pandas keeps a result made of integers
    only at int64, which the embedding does not tell apart from float64. *)
Definition to_numeric (parse : string -> option float) (s : series) : series :=
  match s with
  | F64 l => F64 l
  | Obj l =>
      F64 (map (fun c => match c with
                         | Text t => default PrimFloat.nan (parse t)
                         | Num x => x
                         | Missing => PrimFloat.nan
                         end) l)
  end.

(** [s.astype(str)], given Python's [str] on a float that is a number. *)
Definition float_text (float_str : float -> string) (x : float) : string :=
  if PrimFloat.is_nan x then "nan" else float_str x.

Definition astype_str (float_str : float -> string) (s : series) : series :=
  match s with
  | Obj l =>
      Obj (map (fun c => match c with
                         | Text t => Text t
                         | Num x => Text (float_text float_str x)
                         | Missing => Text "nan"
                         end) l)
  | F64 l => Obj (map (fun x => Text (float_text float_str x)) l)
  end.

(** The median of a group: missing values are skipped, an empty rest is
    missing, an even count takes the mean of the two middle values. *)
Definition sort_floats (l : list float) : list float :=
  merge_sort (fun a b => Is_true (PrimFloat.leb a b)) l.

Definition median (l : list float) : float :=
  let xs := sort_floats (List.filter (fun x => negb (PrimFloat.is_nan x)) l) in
  let n := length xs in
  if Nat.eqb n 0 then PrimFloat.nan
  else if Nat.odd n then nth (n / 2) xs PrimFloat.nan
  else PrimFloat.div
         (PrimFloat.add (nth (n / 2) xs PrimFloat.nan) (nth (n / 2 - 1) xs PrimFloat.nan))
         2%float.

(** [len([x for x in l if x is present])], the [count] aggregate. *)
Definition count {A} (l : list (option A)) : nat :=
  length (List.filter (fun o => match o with Some _ => true | None => false end) l).

(** The distinct values of a list, in the order of their first occurrence. *)
Fixpoint unique (l : list string) : list string :=
  match l with
  | [] => []
  | x :: l' => x :: List.filter (fun y => negb (String.eqb x y)) (unique l')
  end.

(** The group keys of [groupby]: the distinct non-missing keys, sorted. *)
Definition group_keys (keys : list (option string)) : list string :=
  merge_sort String.le (unique (omap id keys)).

(** [head(n)]: the first [n] entries, all but the last [-n] when negative. *)
Definition head {A} (n : Z) (l : list A) : list A :=
  if (0 <=? n)%Z then take (Z.to_nat n) l
  else take (length l - Z.to_nat (- n)) l.

(** [s.value_counts()]: the distinct non-missing values with their number
    of occurrences, most frequent first (ties in order of first occurrence). *)
Definition value_counts (l : list (option string)) : list (string * nat) :=
  let vals := omap id l in
  merge_sort (fun a b => Is_true (snd b <=? snd a))
    (map (fun v => (v, length (List.filter (String.eqb v) vals))) (unique vals)).

End pd.

(** ** The tables, in the shape each function reads them *)

(** A survey response, with the columns the aggregations read; the numeric
    columns are float64, as [clean_numeric_columns] leaves them, NaN where
    the value is missing.  The identifier and the country may be missing. *)
Record survey_row := {
  ResponseId : option Z;
  Country : option string;
  ConvertedCompYearly : float;
  YearsCodePro : float;
  JobSat : float
}.

(** A row of the cost-of-living table. *)
Record col_row := {
  col_Country : option string;
  col_CostOfLivingPlusRentIndex : float;
  col_LocalPurchasingPowerIndex : float
}.

(** A row of [median_comp_by_country]. *)
Record comp_row := {
  comp_Country : string;
  comp_MedianCompensation : float;
  comp_Count : nat
}.

(** A row of [merged], before and after the score is added. *)
Record joined_row := {
  j_Country : string;
  j_MedianCompensation : float;
  j_Count : nat;
  j_CostOfLivingPlusRentIndex : float;
  j_LocalPurchasingPowerIndex : float
}.

Record merged_row := {
  m_Country : string;
  m_MedianCompensation : float;
  m_Count : nat;
  m_CostOfLivingPlusRentIndex : float;
  m_LocalPurchasingPowerIndex : float;
  m_AffordabilityScore : float
}.

(** A row of [regional_stats]. *)
Record regional_row := {
  r_Country : string;
  r_MedianCompensation : float;
  r_MedianExperience : float;
  r_Count : nat;
  r_MedianJobSat : float
}.

(** A row of [df[[column, country_col]]]: its index label and two cells. *)
Record pair_row := {
  label : nat;
  item : cell;
  key : cell
}.

(** The rows of one group of [df.groupby("Country")]. *)
Definition group_rows (df : list survey_row) (c : string) : list survey_row :=
  List.filter (fun r => match Country r with
                        | Some k => String.eqb k c
                        | None => false
                        end) df.

(** [collections.Counter(items)] *)
Definition Counter (items : list string) : gmap string nat :=
  fold_left (fun m k => <[k := S (default 0 (m !! k))]> m) items ∅.

(** ** [data_processing.py] *)
Module data_processing.

Definition default_columns : list string :=
  ["YearsCode"; "YearsCodePro"; "ConvertedCompYearly"; "JobSat"].

(** [clean_numeric_columns(df, columns=None)] *)
Definition clean_numeric_columns (parse : string -> option float)
    (df : pd.DataFrame) (columns : option (list string)) : pd.DataFrame :=
  let columns := default default_columns columns in
  let df_cleaned := df in
  fold_left (fun df_cleaned col =>
               match pd.getitem col df with
               | Ok s => pd.setitem col (pd.to_numeric parse s) df_cleaned
               | Raise _ => df_cleaned
               end) columns df_cleaned.



(** [count_items(series)] *)
Definition count_items (series : pd.series) : result (gmap string nat) :=
  all_responses <- pd.str_split ";" (pd.dropna series) ;;
  flattened <-
    fold_right (fun sublist acc =>
                  rest <- acc ;;
                  match sublist with
                  | Some items =>
                      Ok (List.filter (fun item => negb (String.eqb item ""))
                            (map Py.strip items) ++ rest)
                  | None => Raise TypeError
                  end) (Ok []) all_responses ;;
  Ok (Counter flattened).

(** [DataFrame.explode] on one cell: a row per element of a list, one
    missing row for an empty list, a scalar left as it is. *)
Definition explode_cell (c : option (list string)) : list cell :=
  match c with
  | Some [] => [Missing]
  | Some items => map Text items
  | None => [Missing]
  end.

(** [explode_column(df, column, country_col)], on the rows of
    [df[[column, country_col]]] and the dtype of [df[column]].  The rows
    that [dropna] keeps leave the dtype of the column as it was, so
    [.str.split] is refused on a float64 column, which is what [read_csv]
    gives a column without any value; the lists it returns make an object
    column, which [.str.strip] then reads. *)
Definition explode_column (column_dtype : pd.dtype) (df : list pair_row)
    : result (list pair_row) :=
  let temp_df :=
    List.filter (fun r => negb (pd.isna (item r)) && negb (pd.isna (key r))) df in
  lists <- pd.str_split ";" (pd.column column_dtype (map item temp_df)) ;;
  let exploded :=
    flat_map (fun '(r, l) =>
                map (fun c => {| label := label r; item := c; key := key r |})
                    (explode_cell l))
             (zip temp_df lists) in
  stripped <- pd.str_accessor (pd.Obj (map item exploded)) ;;
  Ok (zip_with (fun r c => {| label := label r; item := c; key := key r |})
        exploded (pd.str_map Py.strip stripped)).

(** [categorize_company(org_size)]: [pd.isnull] first, then the cascade on
    the lower-cased, stripped text.  A number has no [lower] method. *)
Definition categorize_company (org_size : cell) : result string :=
  if pd.isna org_size then Ok "Unknown"
  else match org_size with
       | Text s =>
           let org_size := Py.strip (Py.lower s) in
           if Py.any_in ["1-10"; "11-50"] org_size then Ok "Startup"
           else if Py.any_in ["51-200"; "201-500"] org_size then Ok "Mid-sized"
           else if Py.any_in ["500"; "1000"; "5000"; "5000+"] org_size
                then Ok "Enterprise"
           else Ok "Other"
       | _ => Raise AttributeError
       end.

Definition age_bin_map : gmap string cell :=
  list_to_map
    [("<18", Text "<25");
     ("18-24", Text "<25");
     ("25-34", Text "25-34");
     ("35-44", Text "35-44");
     ("45-54", Text "45-54");
     ("55-64", Text "55+");
     ("65 or older", Text "55+");
     ("Prefer not to say", Missing)].

(** [clean_age_column(df, age_col="Age")] *)
Definition clean_age_column (df : pd.DataFrame) (age_col : string)
    : result pd.DataFrame :=
  let df_cleaned := df in
  age <- pd.getitem age_col df_cleaned ;;
  cleaned <- pd.str_replace " years old" "" age ;;
  let df_cleaned := pd.setitem "Age_cleaned" cleaned df_cleaned in
  age <- pd.getitem "Age_cleaned" df_cleaned ;;
  cleaned <- pd.str_replace "Under " "<" age ;;
  let df_cleaned := pd.setitem "Age_cleaned" cleaned df_cleaned in
  age <- pd.getitem "Age_cleaned" df_cleaned ;;
  cleaned <- pd.str_strip age ;;
  let df_cleaned := pd.setitem "Age_cleaned" cleaned df_cleaned in
  age <- pd.getitem "Age_cleaned" df_cleaned ;;
  Ok (pd.setitem "AgeBin" (pd.map_dict age_bin_map age) df_cleaned).

(** [survey_df.groupby("Country").agg(MedianCompensation=..., Count=...)] *)
Definition median_comp_by_country (survey_df : list survey_row) : list comp_row :=
  map (fun c =>
         let g := group_rows survey_df c in
         {| comp_Country := c;
            comp_MedianCompensation := pd.median (map ConvertedCompYearly g);
            comp_Count := pd.count (map ResponseId g) |})
      (pd.group_keys (map Country survey_df)).

(** [pd.merge(left, col_df, on="Country", how="left")]: every left row
    once per matching right row, once with missing indices when none
    matches. *)
Definition merge_left (left : list comp_row) (col_df : list col_row)
    : list joined_row :=
  flat_map
    (fun l =>
       let matches :=
         List.filter (fun c => match col_Country c with
                               | Some k => String.eqb k (comp_Country l)
                               | None => false
                               end) col_df in
       match matches with
       | [] => [{| j_Country := comp_Country l;
                   j_MedianCompensation := comp_MedianCompensation l;
                   j_Count := comp_Count l;
                   j_CostOfLivingPlusRentIndex := PrimFloat.nan;
                   j_LocalPurchasingPowerIndex := PrimFloat.nan |}]
       | _ => map (fun c =>
                     {| j_Country := comp_Country l;
                        j_MedianCompensation := comp_MedianCompensation l;
                        j_Count := comp_Count l;
                        j_CostOfLivingPlusRentIndex := col_CostOfLivingPlusRentIndex c;
                        j_LocalPurchasingPowerIndex := col_LocalPurchasingPowerIndex c |})
                  matches
       end) left.

(** [merge_comp_col(survey_df, col_df)] *)
Definition merge_comp_col (survey_df : list survey_row) (col_df : list col_row)
    : list merged_row :=
  let merged := merge_left (median_comp_by_country survey_df) col_df in
  let merged :=
    List.filter (fun r => negb (PrimFloat.is_nan (j_CostOfLivingPlusRentIndex r))
                          && negb (PrimFloat.is_nan (j_LocalPurchasingPowerIndex r)))
                merged in
  map (fun r =>
         {| m_Country := j_Country r;
            m_MedianCompensation := j_MedianCompensation r;
            m_Count := j_Count r;
            m_CostOfLivingPlusRentIndex := j_CostOfLivingPlusRentIndex r;
            m_LocalPurchasingPowerIndex := j_LocalPurchasingPowerIndex r;
            m_AffordabilityScore :=
              PrimFloat.div (j_MedianCompensation r) (j_CostOfLivingPlusRentIndex r) |})
      merged.

(** [create_regional_stats(df, min_count=50)]; [None] is a call that
    leaves [min_count] to its default. *)
Definition min_count_default : Z := 50.

Definition create_regional_stats (df : list survey_row) (min_count : option Z)
    : list regional_row :=
  let min_count := default min_count_default min_count in
  let regional_stats :=
    map (fun c =>
           let g := group_rows df c in
           {| r_Country := c;
              r_MedianCompensation := pd.median (map ConvertedCompYearly g);
              r_MedianExperience := pd.median (map YearsCodePro g);
              r_Count := pd.count (map ResponseId g);
              r_MedianJobSat := pd.median (map JobSat g) |})
        (pd.group_keys (map Country df)) in
  List.filter (fun r => (min_count <=? Z.of_nat (r_Count r))%Z) regional_stats.

(** [filter_top_countries(df, n=10)] *)
Definition filter_top_countries (df : list survey_row) (n : Z) : list survey_row :=
  let top_countries := map fst (pd.head n (pd.value_counts (map Country df))) in
  List.filter (fun r => match Country r with
                        | Some c => existsb (String.eqb c) top_countries
                        | None => false
                        end) df.

End data_processing.

(** ** [save_visualizations_standalone.py]: the transform functions it repeats *)
Module standalone.

Definition default_columns : list string :=
  ["YearsCode"; "YearsCodePro"; "ConvertedCompYearly"; "JobSat"].

Definition clean_numeric_columns (parse : string -> option float)
    (df : pd.DataFrame) (columns : option (list string)) : pd.DataFrame :=
  let columns := default default_columns columns in
  let df_cleaned := df in
  fold_left (fun df_cleaned col =>
               match pd.getitem col df with
               | Ok s => pd.setitem col (pd.to_numeric parse s) df_cleaned
               | Raise _ => df_cleaned
               end) columns df_cleaned.

(** [categorize_company(org_size)], with [str(org_size)] before the cascade. *)
Definition categorize_company (float_str : float -> string) (org_size : cell)
    : result string :=
  if pd.isna org_size then Ok "Unknown"
  else
    let text := match org_size with
                | Text s => s
                | Num x => pd.float_text float_str x
                | Missing => "nan"
                end in
    let org_size := Py.strip (Py.lower text) in
    if Py.any_in ["1-10"; "11-50"] org_size then Ok "Startup"
    else if Py.any_in ["51-200"; "201-500"] org_size then Ok "Mid-sized"
    else if Py.any_in ["500"; "1000"; "5000"; "5000+"] org_size
         then Ok "Enterprise"
    else Ok "Other".

Definition age_bin_map : gmap string cell :=
  list_to_map
    [("<18", Text "<25");
     ("18-24", Text "<25");
     ("25-34", Text "25-34");
     ("35-44", Text "35-44");
     ("45-54", Text "45-54");
     ("55-64", Text "55+");
     ("65 or older", Text "55+");
     ("Prefer not to say", Missing)].

(** [clean_age_column(df, age_col="Age")], with [astype(str)] first. *)
Definition clean_age_column (float_str : float -> string)
    (df : pd.DataFrame) (age_col : string) : result pd.DataFrame :=
  let df_cleaned := df in
  age <- pd.getitem age_col df_cleaned ;;
  let df_cleaned := pd.setitem "Age_cleaned" (pd.astype_str float_str age) df_cleaned in
  age <- pd.getitem "Age_cleaned" df_cleaned ;;
  cleaned <- pd.str_replace " years old" "" age ;;
  let df_cleaned := pd.setitem "Age_cleaned" cleaned df_cleaned in
  age <- pd.getitem "Age_cleaned" df_cleaned ;;
  cleaned <- pd.str_replace "Under " "<" age ;;
  let df_cleaned := pd.setitem "Age_cleaned" cleaned df_cleaned in
  age <- pd.getitem "Age_cleaned" df_cleaned ;;
  cleaned <- pd.str_strip age ;;
  let df_cleaned := pd.setitem "Age_cleaned" cleaned df_cleaned in
  age <- pd.getitem "Age_cleaned" df_cleaned ;;
  Ok (pd.setitem "AgeBin" (pd.map_dict age_bin_map age) df_cleaned).

End standalone.

(** ** [visualization.py]: the counting loop of [plot_top_technologies] *)

(** The values a [for] loop over a column visits. *)
Definition series_values (s : pd.series) : list cell :=
  match s with
  | pd.Obj l => l
  | pd.F64 l => map Num l
  end.

(** [counts.update(items)] for a list of items. *)
Definition Counter_update (counts : gmap string nat) (items : list string)
    : gmap string nat :=
  fold_left (fun m k => <[k := S (default 0 (m !! k))]> m) items counts.

(** [counts.update(other)] for a counter [other]: the counts are added. *)
Definition Counter_add (counts other : gmap string nat) : gmap string nat :=
  union_with (fun x y => Some (x + y)) counts other.

Module visualization.

(** The loop that fills [tech_counts] in [plot_top_technologies]; a value
    that is not text has no [split] method. *)
Definition tech_counts (column : pd.series) : result (gmap string nat) :=
  fold_left
    (fun acc tech_list =>
       tech_counts <- acc ;;
       match tech_list with
       | Text t =>
           let techs :=
             List.filter (fun t => negb (String.eqb t ""))
                         (map Py.strip (Py.split ";" t)) in
           Ok (Counter_update tech_counts techs)
       | _ => Raise AttributeError
       end)
    (series_values (pd.dropna column)) (Ok ∅).

End visualization.

(** ** Vocabulary of the statements *)

(** A column of text with missing values, as an object column. *)
Definition text_column (rows : list (option string)) : pd.series :=
  pd.Obj (map (fun r => match r with Some t => Text t | None => Missing end) rows).

(** How often [tok] is a trimmed segment of the rows of a column. *)
Definition occurrences (tok : string) (rows : list (option string)) : nat :=
  list_sum
    (map (fun r => match r with
                   | Some t => length (List.filter (String.eqb tok)
                                         (map Py.strip (Py.split ";" t)))
                   | None => 0
                   end) rows).

(** The tokens [count_items] counts in one row. *)
Definition row_tokens (t : string) : list string :=
  List.filter (fun item => negb (String.eqb item "")) (map Py.strip (Py.split ";" t)).

(** The text of a text cell. *)
Definition text_of (c : cell) : string :=
  match c with
  | Text t => t
  | _ => ""
  end.

(** A cell of a column of text: text or the missing marker, no number. *)
Definition text_or_missing (c : cell) : Prop :=
  match c with
  | Num _ => False
  | _ => True
  end.

(** The rows one input row is exploded into: none when either cell is
    missing, else one per segment of its text, trimmed. *)
Definition exploded_rows (r : pair_row) : list pair_row :=
  match item r with
  | Text t =>
      if pd.isna (key r) then []
      else map (fun tok => {| label := label r; item := Text (Py.strip tok); key := key r |})
               (Py.split ";" t)
  | _ => []
  end.

(** The number of respondent identifiers in a list of survey rows. *)
Definition respondents (g : list survey_row) : nat :=
  length (List.filter (fun r => bool_decide (is_Some (ResponseId r))) g).




(** The text [astype(str)] gives for each value of a column. *)
Definition texts_of (float_str : float -> string) (s : pd.series) : list string :=
  match s with
  | pd.Obj l => map (fun c => match c with
                              | Text t => t
                              | Num x => pd.float_text float_str x
                              | Missing => "nan"
                              end) l
  | pd.F64 l => map (pd.float_text float_str) l
  end.

(** The three string steps of the age cleaner, on the cells of a column. *)
Definition clean_cells (l : list cell) : list cell :=
  pd.str_map Py.strip
    (pd.str_map (Py.replace "Under " "<")
       (pd.str_map (Py.replace " years old" "") l)).

(** A text made of whitespace only (the empty text included). *)
Fixpoint all_space (s : string) : bool :=
  match s with
  | EmptyString => true
  | String c s' => Py.is_space c && all_space s'
  end.

(** The texts of the rows of a table, in order. *)
Definition item_texts (rows : list pair_row) : list string :=
  omap (fun r => match item r with Text t => Some t | _ => None end) rows.

(** The five labels of an age bin. *)
Definition age_bins : list string := ["<25"; "25-34"; "35-44"; "45-54"; "55+"].

(** The five labels of a company category. *)
Definition company_categories : list string :=
  ["Unknown"; "Startup"; "Mid-sized"; "Enterprise"; "Other"].

(** The number of occurrences of a character in a text. *)
Fixpoint count_char (c : ascii) (s : string) : nat :=
  match s with
  | EmptyString => 0
  | String x s' => (if Ascii.eqb x c then 1 else 0) + count_char c s'
  end.

(** ** Small tables for the worked cases *)

Definition survey_two_countries : list survey_row :=
  [{| ResponseId := Some 1%Z; Country := Some "Chile";
      ConvertedCompYearly := 100000%float; YearsCodePro := 5%float;
      JobSat := 7%float |};
   {| ResponseId := Some 2%Z; Country := Some "Peru";
      ConvertedCompYearly := 50000%float; YearsCodePro := 3%float;
      JobSat := 8%float |}].

Definition respondent (id : Z) (country : option string) : survey_row :=
  {| ResponseId := Some id; Country := country;
     ConvertedCompYearly := PrimFloat.nan; YearsCodePro := PrimFloat.nan;
     JobSat := PrimFloat.nan |}.

Definition survey_three_countries : list survey_row :=
  [respondent 1 (Some "A"); respondent 2 (Some "C"); respondent 3 None;
   respondent 4 (Some "B"); respondent 5 (Some "C"); respondent 6 (Some "A");
   respondent 7 (Some "C")].

Definition col_chile (index : float) : list col_row :=
  [{| col_Country := Some "Chile";
      col_CostOfLivingPlusRentIndex := index;
      col_LocalPurchasingPowerIndex := 50%float |}].

Definition merged_chile (index score : float) : merged_row :=
  {| m_Country := "Chile"; m_MedianCompensation := 100000%float; m_Count := 1;
     m_CostOfLivingPlusRentIndex := index;
     m_LocalPurchasingPowerIndex := 50%float;
     m_AffordabilityScore := score |}.

Definition regional_chile : regional_row :=
  {| r_Country := "Chile"; r_MedianCompensation := 100000%float;
     r_MedianExperience := 5%float; r_Count := 1; r_MedianJobSat := 7%float |}.

Definition age_table : pd.DataFrame :=
  [("Age", pd.Obj [Text "Under 18 years old"; Missing; Text "65 or older";
                   Text "Prefer not to say"; Text "35-44 years old"])].

Definition age_table_cleaned (missing_age : cell) : pd.DataFrame :=
  [("Age", pd.Obj [Text "Under 18 years old"; Missing; Text "65 or older";
                   Text "Prefer not to say"; Text "35-44 years old"]);
   ("Age_cleaned", pd.Obj [Text "<18"; missing_age; Text "65 or older";
                           Text "Prefer not to say"; Text "35-44"]);
   ("AgeBin", pd.Obj [Text "<25"; Missing; Text "55+"; Missing; Text "35-44"])].

(** * Properties *)

(** ** Strings *)

Lemma append_cons c a b : String c a +:+ b = String c (a +:+ b).
Proof. reflexivity. Qed.

Lemma append_nil_l a : "" +:+ a = a.
Proof. reflexivity. Qed.

Lemma append_assoc a b c : (a +:+ b) +:+ c = a +:+ (b +:+ c).
Proof.
  induction a as [|x a IH]; [reflexivity|].
  rewrite !append_cons. by rewrite IH.
Qed.

Lemma startswith_app p s :
  Py.startswith p s = true <-> exists b, s = p +:+ b.
Proof.
  revert s. induction p as [|a p IH]; intros s.
  - split; [intros _; by exists s | done].
  - destruct s as [|b s]; simpl.
    + split; [done | intros [? ?]; discriminate].
    + destruct (Ascii.eqb_spec a b) as [->|Hne].
      * rewrite IH. split; intros [t Ht]; exists t.
        -- rewrite append_cons. by rewrite Ht.
        -- rewrite append_cons in Ht. congruence.
      * split; [done | intros [t Ht]]. rewrite append_cons in Ht. congruence.
Qed.

(** [sub in s] holds exactly when [s] is some text, [sub], some text. *)
Lemma contains_app sub s :
  Py.contains sub s = true <-> exists a b, s = a +:+ sub +:+ b.
Proof.
  induction s as [|c s IH].
  - simpl. rewrite orb_false_r, startswith_app. split.
    + intros [b Hb]. by exists "", b.
    + intros [[|x a] [b Hb]]; [by exists b | discriminate].
  - cbn [Py.contains]. rewrite orb_true_iff, IH, startswith_app. split.
    + intros [[b Hb] | (a & b & Hab)].
      * by exists "", b.
      * exists (String c a), b. rewrite append_cons. by rewrite Hab.
    + intros ([|x a] & b & Hab).
      * left. by exists b.
      * right. rewrite append_cons in Hab. exists a, b. congruence.
Qed.

Lemma lower_app a b : Py.lower (a +:+ b) = Py.lower a +:+ Py.lower b.
Proof.
  induction a as [|x a IH]; [reflexivity|].
  rewrite append_cons. simpl. rewrite append_cons. by rewrite IH.
Qed.

Lemma lstrip_app_nonspace a c b :
  Py.is_space c = false ->
  Py.lstrip (a +:+ String c b) = Py.lstrip a +:+ String c b.
Proof.
  intros Hc. induction a as [|x a IH].
  - rewrite !append_nil_l. simpl. by rewrite Hc.
  - rewrite append_cons. simpl. destruct (Py.is_space x); [done|].
    by rewrite append_cons.
Qed.

Lemma rstrip_app_nonspace a c b :
  Py.is_space c = false ->
  Py.rstrip (a +:+ String c b) = a +:+ String c (Py.rstrip b).
Proof.
  intros Hc. induction a as [|x a IH].
  - rewrite !append_nil_l. simpl. rewrite Hc. by destruct (Py.rstrip b).
  - rewrite !append_cons. simpl. rewrite IH.
    destruct a; [rewrite append_nil_l | rewrite append_cons]; done.
Qed.

(** A needle that lower-casing leaves alone and that starts and ends with a
    character other than whitespace survives [s.lower().strip()]. *)
Lemma contains_normalised c0 m c1 s :
  let needle := String c0 (m +:+ String c1 "") in
  Py.lower needle = needle ->
  Py.is_space c0 = false -> Py.is_space c1 = false ->
  Py.contains needle s = true ->
  Py.contains needle (Py.strip (Py.lower s)) = true.
Proof.
  intros needle Hlow H0 H1 (a & b & ->)%contains_app.
  apply contains_app. unfold Py.strip.
  rewrite !lower_app, Hlow. subst needle.
  rewrite append_cons, (lstrip_app_nonspace _ c0) by done.
  rewrite append_assoc, <- append_cons, <- append_assoc, append_cons.
  rewrite (rstrip_app_nonspace _ c1) by done.
  exists (Py.lstrip (Py.lower a)), (Py.rstrip (Py.lower b)).
  by rewrite !append_assoc, !append_cons, !append_assoc.
Qed.

(** ** The company categoriser *)

(** C4, as stated, fails: the cascade is first-match-wins, so a text that
    contains "201-500" and also "1-10" is a "Startup", not "Mid-sized". *)
Lemma categorize_company_startup_first :
  ~ (forall s, Py.contains "201-500" s = true ->
               data_processing.categorize_company (Text s) = Ok "Mid-sized").
Proof.
  intros H. specialize (H "1-10 or 201-500" eq_refl). vm_compute in H. discriminate.
Qed.

(** C4 (amended): [categorize_company] is total on missing and text input.
    Missing gives "Unknown"; a text is lower-cased and stripped and then
    classified by the first rule that matches, "Startup" before "Mid-sized"
    before "Enterprise" before "Other"; so a text that contains "201-500" is
    never "Enterprise": it is "Startup" when its normal form contains "1-10"
    or "11-50", and "Mid-sized" otherwise. *)
Theorem categorize_company_cascade :
  data_processing.categorize_company Missing = Ok "Unknown"
  /\ (forall s,
        data_processing.categorize_company (Text s) =
        Ok (let t := Py.strip (Py.lower s) in
            if Py.contains "1-10" t || Py.contains "11-50" t then "Startup"
            else if Py.contains "51-200" t || Py.contains "201-500" t then "Mid-sized"
            else if Py.contains "500" t || Py.contains "1000" t
                    || Py.contains "5000" t || Py.contains "5000+" t
                 then "Enterprise"
            else "Other"))
  /\ (forall s, exists category,
        data_processing.categorize_company (Text s) = Ok category
        /\ In category ["Startup"; "Mid-sized"; "Enterprise"; "Other"])
  /\ (forall s,
        Py.contains "201-500" s = true ->
        data_processing.categorize_company (Text s) =
        Ok (if Py.any_in ["1-10"; "11-50"] (Py.strip (Py.lower s))
            then "Startup" else "Mid-sized")).
Proof.
  split; [reflexivity|]. split; [|split].
  - intros s. unfold data_processing.categorize_company, Py.any_in.
    cbn [pd.isna existsb]. cbv zeta. set (t := Py.strip (Py.lower s)).
    destruct (Py.contains "1-10" t), (Py.contains "11-50" t),
      (Py.contains "51-200" t), (Py.contains "201-500" t),
      (Py.contains "500" t), (Py.contains "1000" t),
      (Py.contains "5000" t), (Py.contains "5000+" t); reflexivity.
  - intros s. unfold data_processing.categorize_company.
    cbn [pd.isna]. cbv zeta.
    repeat match goal with |- context [if ?b then _ else _] => destruct b end;
      eexists; (split; [reflexivity | simpl; tauto]).
  - intros s Hs. unfold data_processing.categorize_company. simpl pd.isna. cbv iota.
    destruct (Py.any_in ["1-10"; "11-50"] _); [reflexivity|].
    assert (Py.contains "201-500" (Py.strip (Py.lower s)) = true) as Hn.
    { by apply (contains_normalised "2" "01-50" "0"). }
    unfold Py.any_in at 1. cbn [existsb]. rewrite Hn, orb_true_r. reflexivity.
Qed.

Lemma categorize_company_cascade_witness :
  Py.contains "201-500" "201-500 Employees" = true
  /\ data_processing.categorize_company (Text "201-500 Employees") = Ok "Mid-sized".
Proof.
  split; [reflexivity|].
  exact (proj2 (proj2 (proj2 categorize_company_cascade)) "201-500 Employees" eq_refl).
Defined.

(** ** The tokenizer *)

Lemma Counter_fold_lookup items (m : gmap string nat) tok :
  fold_left (fun m k => <[k := S (default 0 (m !! k))]> m) items m !! tok =
  match length (List.filter (String.eqb tok) items) with
  | 0 => m !! tok
  | S n => Some (default 0 (m !! tok) + S n)
  end.
Proof.
  revert m. induction items as [|k items IH]; intros m; [done|].
  cbn [fold_left List.filter]. rewrite IH.
  destruct (String.eqb_spec tok k) as [->|Hne].
  - rewrite lookup_insert_eq. cbn [length].
    destruct (length _); simpl; f_equal; lia.
  - by rewrite lookup_insert_ne.
Qed.

Lemma Counter_lookup items tok :
  Counter items !! tok =
  match length (List.filter (String.eqb tok) items) with
  | 0 => None
  | S n => Some (S n)
  end.
Proof.
  unfold Counter. rewrite Counter_fold_lookup, lookup_empty. by destruct (length _).
Qed.

Lemma str_accessor_text (l : list string) :
  pd.str_accessor (pd.Obj (map Text l)) = Ok (map Text l).
Proof.
  unfold pd.str_accessor.
  assert (existsb (fun c => match c with
                            | Num x => negb (PrimFloat.is_nan x)
                            | _ => false
                            end) (map Text l) = false) as ->.
  { induction l; [done|]. by cbn. }
  by rewrite orb_true_r.
Qed.

Lemma dropna_text_column rows :
  pd.dropna (text_column rows) = pd.Obj (map Text (omap id rows)).
Proof.
  unfold text_column, pd.dropna. f_equal.
  induction rows as [|[t|] rows IH]; cbn; [done | by rewrite IH | done].
Qed.

Lemma count_items_text rows :
  data_processing.count_items (text_column rows) =
  Ok (Counter (flat_map row_tokens (omap id rows))).
Proof.
  unfold data_processing.count_items, pd.str_split.
  rewrite dropna_text_column, str_accessor_text. cbn [bind].
  generalize (omap id rows) as texts. intros texts.
  assert (fold_right
            (fun sublist acc =>
               rest <- acc ;;
               match sublist with
               | Some items =>
                   Ok (List.filter (fun item => negb (String.eqb item ""))
                         (map Py.strip items) ++ rest)
               | None => Raise TypeError
               end) (Ok [])
            (map (fun c => match c with
                           | Text t => Some (Py.split ";" t)
                           | _ => None
                           end) (map Text texts))
          = Ok (flat_map row_tokens texts)) as ->; [|done].
  induction texts as [|t texts IH]; [done|].
  cbn [map fold_right flat_map]. by rewrite IH.
Qed.

Lemma filter_length_app {A} (f : A -> bool) l1 l2 :
  length (List.filter f (l1 ++ l2)) =
  length (List.filter f l1) + length (List.filter f l2).
Proof. by rewrite List.filter_app, length_app. Qed.

Lemma row_tokens_count tok t :
  length (List.filter (String.eqb tok) (row_tokens t)) =
  if String.eqb tok "" then 0
  else length (List.filter (String.eqb tok) (map Py.strip (Py.split ";" t))).
Proof.
  unfold row_tokens. induction (map Py.strip (Py.split ";" t)) as [|x l IH].
  - by destruct (String.eqb tok "").
  - cbn [List.filter]. destruct (String.eqb_spec x "") as [->|Hx]; cbn [negb].
    + rewrite IH. by destruct (String.eqb_spec tok "").
    + cbn [List.filter]. destruct (String.eqb_spec tok x) as [->|Hne];
        cbn [length]; rewrite IH; [|done].
      by rewrite (proj2 (String.eqb_neq x "")).
Qed.

Lemma flat_tokens_count tok rows :
  length (List.filter (String.eqb tok) (flat_map row_tokens (omap id rows))) =
  if String.eqb tok "" then 0 else occurrences tok rows.
Proof.
  unfold occurrences. induction rows as [|[t|] rows IH]; cbn.
  - by destruct (String.eqb tok "").
  - rewrite filter_length_app, IH, row_tokens_count.
    by destruct (String.eqb tok "").
  - done.
Qed.

(** C6: on a column of semicolon-delimited text with missing values,
    [count_items] returns the frequency map of the trimmed tokens: a token is
    mapped to the number of its occurrences over all rows, a missing row adds
    nothing, the empty token is never counted, and the rows "Python;Go",
    missing, "Go; Rust " give exactly Python 1, Go 2, Rust 1. *)
Theorem count_items_frequencies :
  (forall rows, exists m,
      data_processing.count_items (text_column rows) = Ok m
      /\ (forall tok,
            m !! tok = if String.eqb tok "" then None
                       else match occurrences tok rows with
                            | 0 => None
                            | S n => Some (S n)
                            end))
  /\ (forall rows,
        data_processing.count_items (text_column (None :: rows)) =
        data_processing.count_items (text_column rows))
  /\ data_processing.count_items
       (text_column [Some "Python;Go"; None; Some "Go; Rust "]) =
     Ok {[ "Python" := 1; "Go" := 2; "Rust" := 1 ]}.
Proof.
  split; [|split].
  - intros rows. eexists. split; [apply count_items_text|].
    intros tok. rewrite Counter_lookup, flat_tokens_count.
    by destruct (String.eqb tok "").
  - intros rows. by rewrite !count_items_text.
  - vm_compute. reflexivity.
Qed.

(** ** The row exploder *)

Lemma split_nonempty sep t : Py.split sep t <> [].
Proof.
  induction t as [|c t IH]; [done|]. simpl.
  destruct (Ascii.eqb c sep); [done|]. by destruct (Py.split sep t).
Qed.

Lemma map_text_of (l : list cell) :
  Forall (fun c => exists t, c = Text t) l -> l = map Text (map text_of l).
Proof.
  induction 1 as [|c l [t ->] _ IH]; [done|]. cbn. by rewrite <- IH.
Qed.

Lemma zip_map_self {A B} (g : A -> B) (l : list A) :
  zip l (map g l) = map (fun x => (x, g x)) l.
Proof. induction l as [|x l IH]; [done|]. cbn. by rewrite IH. Qed.

Lemma zip_with_map_self {A B C} (f : A -> B -> C) (g : A -> B) (l : list A) :
  zip_with f l (map g l) = map (fun x => f x (g x)) l.
Proof. induction l as [|x l IH]; [done|]. cbn. by rewrite IH. Qed.

Lemma flat_map_map {A B C} (f : A -> list B) (g : B -> C) (l : list A) :
  map g (flat_map f l) = flat_map (fun x => map g (f x)) l.
Proof.
  induction l as [|x l IH]; [done|]. cbn. by rewrite map_app, IH.
Qed.

Lemma explode_column_text (df : list pair_row) :
  Forall (fun r => text_or_missing (item r)) df ->
  data_processing.explode_column pd.object df = Ok (flat_map exploded_rows df).
Proof.
  intros Htext. unfold data_processing.explode_column. cbn [pd.column].
  set (temp_df := List.filter _ df).
  assert (Forall (fun r => exists t, item r = Text t) temp_df) as Htemp.
  { apply Forall_forall. intros r [Hr Hkeep]%list_elem_of_In%filter_In.
    rewrite Forall_forall in Htext. apply list_elem_of_In, Htext in Hr.
    destruct (item r); [by eexists | done | done]. }
  assert (map item temp_df = map Text (map (fun r => text_of (item r)) temp_df))
    as Hitems.
  { rewrite <- (map_map item text_of). apply map_text_of.
    by apply Forall_map. }
  unfold pd.str_split. rewrite Hitems, str_accessor_text. cbn [bind].
  rewrite !map_map. cbn [text_of]. rewrite zip_map_self, flat_map_concat_map, map_map.
  rewrite <- flat_map_concat_map.
  assert (forall t, data_processing.explode_cell (Some (Py.split ";" t)) =
                    map Text (Py.split ";" t)) as Hcell.
  { intros t. pose proof (split_nonempty ";" t). by destruct (Py.split ";" t). }
  rewrite (flat_map_ext _
             (fun x => map (fun tok => {| label := label x; item := Text tok;
                                          key := key x |})
                           (Py.split ";" (text_of (item x)))))
    by (intros x; by rewrite Hcell, map_map).
  set (exploded := flat_map _ temp_df).
  assert (Forall (fun e => exists t, item e = Text t) exploded) as Hexp.
  { apply Forall_forall. intros e (r & _ & (tok & <- & _)%in_map_iff)%list_elem_of_In%in_flat_map.
    by eexists. }
  rewrite (map_text_of (map item exploded)) by (by apply Forall_map).
  rewrite str_accessor_text. cbn [bind]. f_equal.
  unfold pd.str_map. rewrite !map_map. cbn [text_of].
  rewrite zip_with_map_self. subst exploded. rewrite flat_map_map.
  subst temp_df. clear Htemp Hitems Hcell Hexp.
  induction Htext as [|r df Hr _ IH]; [done|].
  cbn [List.filter flat_map]. unfold exploded_rows at 1.
  destruct (item r) as [t| |] eqn:Hitem; cbn [pd.isna negb andb]; [|done|exact IH].
  destruct (pd.isna (key r)); cbn [negb]; [exact IH|].
  cbn [flat_map]. rewrite IH. f_equal.
  rewrite Hitem, map_map. cbn [text_of label key item]. done.
Qed.

Lemma explode_column_float64 (df : list pair_row) :
  data_processing.explode_column pd.float64 df = Raise AttributeError.
Proof. reflexivity. Qed.

(** C7, as stated, fails: a row whose delimited cell is present and whose
    key cell is missing is dropped as well. *)
Lemma explode_column_drops_missing_key :
  pd.isna (Text "Python;Go") = false
  /\ data_processing.explode_column pd.object
       [{| label := 0; item := Text "Python;Go"; key := Missing |}] = Ok [].
Proof. split; reflexivity. Qed.

(** C7 (amended): on a table whose delimited column is an object column
    holding text or missing values, [explode_column] drops exactly the rows
    where the delimited cell or the key cell is missing, and replaces every
    other row by one row per segment of the semicolon-split text, each
    segment trimmed and paired with the label and the key cell of its row;
    empty segments are kept, as empty strings.  On a float64 delimited
    column, such as a column read without any value, it returns no table:
    [.str.split] raises AttributeError. *)
Theorem explode_column_rows :
  (forall df,
      Forall (fun r => text_or_missing (item r)) df ->
      data_processing.explode_column pd.object df = Ok (flat_map exploded_rows df))
  /\ (forall r,
        text_or_missing (item r) ->
        (exploded_rows r = [] <-> pd.isna (item r) = true \/ pd.isna (key r) = true))
  /\ (forall df, data_processing.explode_column pd.float64 df = Raise AttributeError)
  /\ data_processing.explode_column pd.object
       [{| label := 7; item := Text "Go;; Rust "; key := Text "Chile" |}] =
     Ok [{| label := 7; item := Text "Go"; key := Text "Chile" |};
         {| label := 7; item := Text ""; key := Text "Chile" |};
         {| label := 7; item := Text "Rust"; key := Text "Chile" |}]
  /\ data_processing.explode_column pd.float64
       [{| label := 0; item := Num PrimFloat.nan; key := Text "Chile" |};
        {| label := 1; item := Num PrimFloat.nan; key := Text "Peru" |}] =
     Raise AttributeError.
Proof.
  split; [exact explode_column_text|].
  split; [|split; [exact explode_column_float64 | split; reflexivity]].
  intros r Hr. unfold exploded_rows.
  destruct (item r) as [t| |]; cbn [pd.isna]; [|done|by intuition].
  destruct (pd.isna (key r)); [by intuition|].
  pose proof (split_nonempty ";" t). destruct (Py.split ";" t); [done|].
  cbn. split; [done | by intros [|]].
Qed.

Lemma explode_column_rows_witness :
  data_processing.explode_column pd.object
    [{| label := 0; item := Text "a; b"; key := Text "Peru" |};
     {| label := 1; item := Missing; key := Text "Peru" |}] =
  Ok [{| label := 0; item := Text "a"; key := Text "Peru" |};
      {| label := 0; item := Text "b"; key := Text "Peru" |}].
Proof.
  apply (proj1 explode_column_rows
           [{| label := 0; item := Text "a; b"; key := Text "Peru" |};
            {| label := 1; item := Missing; key := Text "Peru" |}]).
  repeat constructor.
Defined.


(** ** The top-N filter *)

Lemma filter_sublist {A} (f : A -> bool) (l : list A) :
  sublist (List.filter f l) l.
Proof.
  induction l as [|x l IH]; [constructor|]. cbn.
  destruct (f x); by constructor.
Qed.

Lemma omap_country_present (df : list survey_row) :
  omap id (map Country (List.filter (fun r => bool_decide (is_Some (Country r))) df)) =
  omap id (map Country df).
Proof.
  induction df as [|r df IH]; [done|]. cbn.
  destruct (Country r) as [c|] eqn:Hc; cbn; [|done]. rewrite Hc. cbn. by rewrite IH.
Qed.

(** C10: the table [filter_top_countries] returns is a sub-list of its
    input, rows unchanged and in their order; no row with a missing Country
    is in it; and the ranking is the same as on the table without the rows
    whose Country is missing. *)
Theorem filter_top_countries_rows (df : list survey_row) (n : Z) :
  sublist (data_processing.filter_top_countries df n) df
  /\ (forall r, In r (data_processing.filter_top_countries df n) ->
                In r df /\ exists c, Country r = Some c
                  /\ In c (map fst (pd.head n (pd.value_counts (map Country df)))))
  /\ (forall r, In r df -> Country r = None ->
                ~ In r (data_processing.filter_top_countries df n))
  /\ pd.value_counts (map Country df) =
     pd.value_counts
       (map Country (List.filter (fun r => bool_decide (is_Some (Country r))) df)).
Proof.
  unfold data_processing.filter_top_countries. split; [apply filter_sublist|].
  split; [|split].
  - intros r [Hin Hkeep]%filter_In. split; [done|].
    destruct (Country r) as [c|]; [|done]. exists c. split; [done|].
    apply existsb_exists in Hkeep as (c' & Hc' & ->%String.eqb_eq). done.
  - intros r _ Hnone [_ Hkeep]%filter_In. by rewrite Hnone in Hkeep.
  - unfold pd.value_counts. by rewrite omap_country_present.
Qed.

Lemma filter_top_countries_rows_witness :
  In (respondent 1 (Some "A")) survey_three_countries
  /\ exists c, Country (respondent 1 (Some "A")) = Some c
       /\ In c (map fst (pd.head 2 (pd.value_counts (map Country survey_three_countries)))).
Proof.
  exact (proj1 (proj2 (filter_top_countries_rows survey_three_countries 2))
           (respondent 1 (Some "A")) (or_introl eq_refl)).
Defined.

(** With three responses from C, two from A, one from B and one without a
    country, the two top countries are C and A, and their rows are kept. *)
Example filter_top_two_countries :
  map fst (pd.head 2 (pd.value_counts (map Country survey_three_countries))) = ["C"; "A"]
  /\ data_processing.filter_top_countries survey_three_countries 2 =
     [respondent 1 (Some "A"); respondent 2 (Some "C"); respondent 5 (Some "C");
      respondent 6 (Some "A"); respondent 7 (Some "C")].
Proof. split; vm_compute; reflexivity. Qed.

(** ** Division of floats by zero *)

Lemma is_nan_SF (x : float) :
  PrimFloat.is_nan x = match Prim2SF x with S754_nan => true | _ => false end.
Proof.
  unfold PrimFloat.is_nan. rewrite FloatAxioms.eqb_spec. unfold SFeqb, SFcompare.
  destruct (Prim2SF x) as [s|s| |s m e]; try by destruct s.
  - done.
  - rewrite Z.compare_refl, Pos.compare_refl. by destruct s.
Qed.

Lemma eqb_zero_SF (x : float) :
  PrimFloat.eqb x 0%float = match Prim2SF x with S754_zero _ => true | _ => false end.
Proof.
  rewrite FloatAxioms.eqb_spec.
  change (Prim2SF 0%float) with (S754_zero false).
  by destruct (Prim2SF x) as [s|s| |s m e]; try destruct s.
Qed.

(** A quotient by zero is missing exactly when the numerator is missing or
    zero; any other numerator gives an infinity. *)
Lemma div_by_zero (x y : float) :
  PrimFloat.eqb y 0%float = true ->
  if PrimFloat.is_nan x || PrimFloat.eqb x 0%float
  then PrimFloat.is_nan (PrimFloat.div x y) = true
  else PrimFloat.div x y = PrimFloat.infinity
       \/ PrimFloat.div x y = PrimFloat.neg_infinity.
Proof.
  rewrite (eqb_zero_SF y). intros Hy.
  assert (forall b, Prim2SF (PrimFloat.div x y) = S754_infinity b ->
                    PrimFloat.div x y = PrimFloat.infinity
                    \/ PrimFloat.div x y = PrimFloat.neg_infinity) as Hinf.
  { intros [|] Hb; [right | left]; by apply Prim2SF_inj. }
  rewrite (is_nan_SF x), (eqb_zero_SF x), (is_nan_SF (PrimFloat.div x y)).
  pose proof (div_spec x y) as Hdiv. revert Hdiv Hinf.
  destruct (Prim2SF y) as [sy|sy| |sy my ey]; try done.
  destruct (Prim2SF x) as [sx|sx| |sx m e]; cbn; intros -> Hinf;
    try reflexivity; by eapply Hinf.
Qed.

(** ** Grouping by country *)

Lemma unique_In x l : In x (pd.unique l) <-> In x l.
Proof.
  induction l as [|a l IH]; [done|]. cbn [pd.unique In].
  rewrite filter_In, IH. destruct (String.eqb_spec a x) as [->|Hne]; [tauto|].
  cbn. tauto.
Qed.

Lemma unique_NoDup l : List.NoDup (pd.unique l).
Proof.
  induction l as [|a l IH]; [constructor|]. cbn [pd.unique]. constructor.
  - intros [_ Ha]%filter_In. by rewrite String.eqb_refl in Ha.
  - by apply List.NoDup_filter.
Qed.

Lemma omap_id_In {A} (x : A) (l : list (option A)) :
  In x (omap id l) <-> In (Some x) l.
Proof.
  rewrite <- !list_elem_of_In, list_elem_of_omap. split.
  - by intros ([y|] & Hy & [= ->]).
  - intros Hx. by exists (Some x).
Qed.

Lemma group_keys_In c keys : In c (pd.group_keys keys) <-> In (Some c) keys.
Proof.
  unfold pd.group_keys.
  rewrite <- (omap_id_In c keys), <- (unique_In c (omap id keys)).
  rewrite <- !list_elem_of_In. by rewrite merge_sort_Permutation.
Qed.

Lemma group_keys_NoDup keys : List.NoDup (pd.group_keys keys).
Proof.
  unfold pd.group_keys. apply NoDup_ListNoDup.
  rewrite merge_sort_Permutation. apply NoDup_ListNoDup, unique_NoDup.
Qed.

(** ** The joiner *)

Lemma median_comp_by_country_In survey_df l :
  In l (data_processing.median_comp_by_country survey_df) ->
  In (Some (comp_Country l)) (map Country survey_df).
Proof.
  unfold data_processing.median_comp_by_country.
  intros (c & <- & Hc)%in_map_iff. by apply group_keys_In.
Qed.

Lemma merge_left_In left col_df j :
  In j (data_processing.merge_left left col_df) ->
  exists l, In l left
    /\ j_Country j = comp_Country l
    /\ j_MedianCompensation j = comp_MedianCompensation l
    /\ ((PrimFloat.is_nan (j_CostOfLivingPlusRentIndex j) = true)
        \/ exists c, In c col_df
             /\ col_Country c = Some (comp_Country l)
             /\ j_CostOfLivingPlusRentIndex j = col_CostOfLivingPlusRentIndex c
             /\ j_LocalPurchasingPowerIndex j = col_LocalPurchasingPowerIndex c).
Proof.
  unfold data_processing.merge_left. intros (l & Hl & Hj)%in_flat_map.
  exists l. split; [done|].
  destruct (List.filter _ col_df) as [|c0 matches] eqn:Hm.
  - destruct Hj as [<-|[]]. cbn. by auto.
  - apply in_map_iff in Hj as (c & <- & Hc). cbn. do 2 (split; [done|]).
    right. exists c. rewrite <- Hm in Hc. apply filter_In in Hc as [Hc Hk].
    split; [done|]. split; [|done].
    destruct (col_Country c) as [k|]; [|done]. by apply String.eqb_eq in Hk as ->.
Qed.

Lemma merge_comp_col_In survey_df col_df r :
  In r (data_processing.merge_comp_col survey_df col_df) ->
  PrimFloat.is_nan (m_CostOfLivingPlusRentIndex r) = false
  /\ PrimFloat.is_nan (m_LocalPurchasingPowerIndex r) = false
  /\ m_AffordabilityScore r =
     PrimFloat.div (m_MedianCompensation r) (m_CostOfLivingPlusRentIndex r)
  /\ In (Some (m_Country r)) (map Country survey_df)
  /\ exists c, In c col_df
       /\ col_Country c = Some (m_Country r)
       /\ m_CostOfLivingPlusRentIndex r = col_CostOfLivingPlusRentIndex c
       /\ m_LocalPurchasingPowerIndex r = col_LocalPurchasingPowerIndex c.
Proof.
  unfold data_processing.merge_comp_col.
  intros (j & <- & [Hj Hkeep]%filter_In)%in_map_iff. cbn.
  apply andb_true_iff in Hkeep as [H1%negb_true_iff H2%negb_true_iff].
  do 3 (split; [done|]).
  apply merge_left_In in Hj as (l & Hl & -> & _ & [Hnan | Hc]); [congruence|].
  split; [|done]. by apply median_comp_by_country_In.
Qed.

(** C2: every row of the table [merge_comp_col] returns has both index
    values present and comes from a row of the cost-of-living table with the
    same country; so a country of the survey rows that no row of the
    cost-of-living table matches never appears in the result. *)
Theorem merge_comp_col_inner_join survey_df col_df :
  (forall r,
      In r (data_processing.merge_comp_col survey_df col_df) ->
      PrimFloat.is_nan (m_CostOfLivingPlusRentIndex r) = false
      /\ PrimFloat.is_nan (m_LocalPurchasingPowerIndex r) = false
      /\ exists c, In c col_df
           /\ col_Country c = Some (m_Country r)
           /\ m_CostOfLivingPlusRentIndex r = col_CostOfLivingPlusRentIndex c
           /\ m_LocalPurchasingPowerIndex r = col_LocalPurchasingPowerIndex c)
  /\ (forall country,
        In (Some country) (map Country survey_df) ->
        (forall c, In c col_df -> col_Country c <> Some country) ->
        forall r, In r (data_processing.merge_comp_col survey_df col_df) ->
                  m_Country r <> country).
Proof.
  split.
  - intros r (H1 & H2 & _ & _ & Hc)%merge_comp_col_In. done.
  - intros country _ Hno r (_ & _ & _ & _ & c & Hc & Hk & _)%merge_comp_col_In <-.
    by apply (Hno c).
Qed.

Lemma merge_comp_col_inner_join_witness :
  PrimFloat.is_nan (m_CostOfLivingPlusRentIndex (merged_chile 80 1250)) = false
  /\ PrimFloat.is_nan (m_LocalPurchasingPowerIndex (merged_chile 80 1250)) = false
  /\ exists c, In c (col_chile 80)
       /\ col_Country c = Some "Chile"
       /\ 80%float = col_CostOfLivingPlusRentIndex c
       /\ 50%float = col_LocalPurchasingPowerIndex c.
Proof.
  exact (proj1 (merge_comp_col_inner_join survey_two_countries (col_chile 80))
           (merged_chile 80 1250) (or_introl eq_refl)).
Defined.

(** C1, as stated, fails: with a cost index of zero the score of a
    compensation of 100000 is plus infinity, which is not the missing
    marker. *)
Lemma affordability_zero_index_is_infinite :
  ~ (forall survey_df col_df r,
       In r (data_processing.merge_comp_col survey_df col_df) ->
       PrimFloat.eqb (m_CostOfLivingPlusRentIndex r) 0%float = true ->
       PrimFloat.is_nan (m_AffordabilityScore r) = true).
Proof.
  intros H.
  specialize (H survey_two_countries (col_chile 0) (merged_chile 0 PrimFloat.infinity)
                (or_introl eq_refl) eq_refl).
  vm_compute in H. discriminate.
Qed.

(** C1 (amended): in every row of the table [merge_comp_col] returns, the
    AffordabilityScore is the float quotient of MedianCompensation by the
    'Cost of Living Plus Rent Index' of that row; the index of a returned
    row is never missing; no exception is raised; when the index is zero
    the score is missing exactly when the median compensation is missing or
    zero, and plus or minus infinity otherwise; for a median compensation of
    100000 and a cost index of 80 the score is exactly 1250.0. *)
Theorem affordability_score :
  (forall survey_df col_df r,
      In r (data_processing.merge_comp_col survey_df col_df) ->
      m_AffordabilityScore r =
      PrimFloat.div (m_MedianCompensation r) (m_CostOfLivingPlusRentIndex r)
      /\ PrimFloat.is_nan (m_CostOfLivingPlusRentIndex r) = false
      /\ (PrimFloat.eqb (m_CostOfLivingPlusRentIndex r) 0%float = true ->
          if PrimFloat.is_nan (m_MedianCompensation r)
             || PrimFloat.eqb (m_MedianCompensation r) 0%float
          then PrimFloat.is_nan (m_AffordabilityScore r) = true
          else m_AffordabilityScore r = PrimFloat.infinity
               \/ m_AffordabilityScore r = PrimFloat.neg_infinity))
  /\ data_processing.merge_comp_col survey_two_countries (col_chile 80) =
     [merged_chile 80 1250].
Proof.
  split; [|vm_compute; reflexivity].
  intros survey_df col_df r (Hidx & _ & Hscore & _)%merge_comp_col_In.
  do 2 (split; [done|]). intros Hzero. rewrite Hscore. by apply div_by_zero.
Qed.

Lemma affordability_score_witness :
  m_AffordabilityScore (merged_chile 0 PrimFloat.infinity) = PrimFloat.infinity
  \/ m_AffordabilityScore (merged_chile 0 PrimFloat.infinity) = PrimFloat.neg_infinity.
Proof.
  exact (proj2 (proj2 (proj1 affordability_score survey_two_countries (col_chile 0)
                         (merged_chile 0 PrimFloat.infinity) (or_introl eq_refl)))
           eq_refl).
Defined.

(** ** The order of floats and the median *)





(** Merge sort sorts the lists on whose elements the order is total. *)
Section merge_sort_on.
Context {A} (R : relation A) `{forall x y, Decision (R x y)} (P : A -> Prop).
Hypothesis R_total : forall x y, P x -> P y -> R x y \/ R y x.







End merge_sort_on.






(** ** The aggregator *)

Lemma count_respondents (g : list survey_row) :
  pd.count (map ResponseId g) = respondents g.
Proof.
  unfold pd.count, respondents. induction g as [|r g IH]; [done|]. cbn.
  destruct (ResponseId r); cbn; by rewrite ?IH.
Qed.


Lemma filter_none {A} (f : A -> bool) (l : list A) :
  (forall x, In x l -> f x = false) -> List.filter f l = [].
Proof.
  induction l as [|x l IH]; [done|]. intros H. cbn.
  rewrite (H x) by (by left). apply IH. intros y Hy. apply H. by right.
Qed.


Lemma create_regional_stats_In df min_count r :
  In r (data_processing.create_regional_stats df min_count) <->
  In (Some (r_Country r)) (map Country df)
  /\ r = (let g := group_rows df (r_Country r) in
          {| r_Country := r_Country r;
             r_MedianCompensation := pd.median (map ConvertedCompYearly g);
             r_MedianExperience := pd.median (map YearsCodePro g);
             r_Count := respondents g;
             r_MedianJobSat := pd.median (map JobSat g) |})
  /\ (default 50 min_count <= Z.of_nat (respondents (group_rows df (r_Country r))))%Z.
Proof.
  unfold data_processing.create_regional_stats. cbv zeta.
  change data_processing.min_count_default with 50%Z.
  rewrite filter_In, in_map_iff.
  split.
  - intros [(c & <- & Hc%group_keys_In) Hmin%Z.leb_le]. cbn in *.
    rewrite count_respondents in *. done.
  - intros (Hc & Hr & Hmin). split.
    + exists (r_Country r). split; [|by apply group_keys_In].
      rewrite Hr at 6. cbn. by rewrite count_respondents.
    + apply Z.leb_le. rewrite Hr. cbn. done.
Qed.



(** ** Tables in column form *)

Lemma getitem_setitem_same c v df : pd.getitem c (pd.setitem c v df) = Ok v.
Proof.
  induction df as [|[name s0] df IH]; cbn.
  - by rewrite String.eqb_refl.
  - destruct (String.eqb name c) eqn:E; cbn; by rewrite E.
Qed.

Lemma getitem_setitem_ne c a v df :
  a <> c -> pd.getitem c (pd.setitem a v df) = pd.getitem c df.
Proof.
  intros Hne. induction df as [|[name s0] df IH]; cbn.
  - by rewrite (proj2 (String.eqb_neq a c)).
  - destruct (String.eqb_spec name a) as [->|Hna]; cbn.
    + by rewrite (proj2 (String.eqb_neq a c)).
    + by rewrite IH.
Qed.

Lemma setitem_getitem_id c s df : pd.getitem c df = Ok s -> pd.setitem c s df = df.
Proof.
  induction df as [|[name s0] df IH]; cbn; [done|].
  destruct (String.eqb name c); [by intros [= ->] | intros H; by rewrite IH].
Qed.

Lemma setitem_setitem c v w df :
  pd.setitem c v (pd.setitem c w df) = pd.setitem c v df.
Proof.
  induction df as [|[name s0] df IH]; cbn.
  - by rewrite String.eqb_refl.
  - destruct (String.eqb name c) eqn:E; cbn; rewrite E; [done | by rewrite IH].
Qed.

(** ** The column normalizer *)

Lemma to_numeric_idem parse s :
  pd.to_numeric parse (pd.to_numeric parse s) = pd.to_numeric parse s.
Proof. by destruct s. Qed.

Section normalizer.
Variable parse : string -> option float.
Variable df : pd.DataFrame.

Let step (df_cleaned : pd.DataFrame) (col : string) : pd.DataFrame :=
  match pd.getitem col df with
  | Ok s => pd.setitem col (pd.to_numeric parse s) df_cleaned
  | Raise _ => df_cleaned
  end.

Lemma getitem_normalized columns acc c :
  pd.getitem c (fold_left step columns acc) =
  match pd.getitem c df with
  | Ok s => if existsb (String.eqb c) columns
            then Ok (pd.to_numeric parse s) else pd.getitem c acc
  | Raise _ => pd.getitem c acc
  end.
Proof.
  revert acc. induction columns as [|a columns IH]; intros acc.
  - cbn. by destruct (pd.getitem c df).
  - cbn [fold_left existsb]. rewrite IH. unfold step.
    destruct (String.eqb_spec c a) as [->|Hne].
    + destruct (pd.getitem a df) as [s|e]; [|done].
      rewrite getitem_setitem_same. by destruct (existsb _ columns).
    + destruct (pd.getitem c df) as [s|e], (pd.getitem a df) as [s'|e'];
        rewrite ?getitem_setitem_ne by done; done.
Qed.

Lemma normalized_fixed columns :
  (forall col s, In col columns -> pd.getitem col df = Ok s ->
                 pd.to_numeric parse s = s) ->
  fold_left step columns df = df.
Proof.
  induction columns as [|a columns IH]; [done|]. intros Hnum.
  cbn [fold_left]. assert (step df a = df) as ->.
  { unfold step. destruct (pd.getitem a df) as [s|e] eqn:Ha; [|done].
    rewrite (Hnum a s) by (done || by left). by apply setitem_getitem_id. }
  apply IH. intros col s Hcol. apply Hnum. by right.
Qed.
End normalizer.

Lemma clean_numeric_columns_idem parse df columns :
  data_processing.clean_numeric_columns parse
    (data_processing.clean_numeric_columns parse df columns) columns =
  data_processing.clean_numeric_columns parse df columns.
Proof.
  unfold data_processing.clean_numeric_columns.
  set (cols := default data_processing.default_columns columns).
  apply normalized_fixed. intros col s Hcol.
  rewrite getitem_normalized.
  assert (existsb (String.eqb col) cols = true) as ->.
  { apply existsb_exists. exists col. by rewrite String.eqb_refl. }
  destruct (pd.getitem col df) as [s0|e]; [|done].
  intros [= <-]. apply to_numeric_idem.
Qed.

(** ** The age binner *)

Lemma str_accessor_str_map f l :
  pd.str_accessor (pd.Obj (pd.str_map f l)) = Ok (pd.str_map f l).
Proof.
  unfold pd.str_accessor.
  assert (existsb (fun c => match c with
                            | Num x => negb (PrimFloat.is_nan x)
                            | _ => false
                            end) (pd.str_map f l) = false) as ->.
  { induction l as [|[t|x|] l IH]; by cbn. }
  by rewrite orb_true_r.
Qed.

(** The function in one step: the cleaned cells and their bins are set on
    the input table. *)
Lemma clean_age_column_unfold df age_col :
  data_processing.clean_age_column df age_col =
  (age <- pd.getitem age_col df ;;
   l <- pd.str_accessor age ;;
   Ok (pd.setitem "AgeBin"
         (pd.map_dict data_processing.age_bin_map (pd.Obj (clean_cells l)))
         (pd.setitem "Age_cleaned" (pd.Obj (clean_cells l)) df))).
Proof.
  unfold data_processing.clean_age_column, pd.str_replace, pd.str_strip.
  destruct (pd.getitem age_col df) as [age|e]; [|done]. cbn [bind].
  destruct (pd.str_accessor age) as [l|e]; [|done]. cbn [bind].
  rewrite !getitem_setitem_same. cbn [bind].
  rewrite !str_accessor_str_map. cbn [bind].
  rewrite !getitem_setitem_same. cbn [bind].
  rewrite !str_accessor_str_map. cbn [bind].
  rewrite !getitem_setitem_same. cbn [bind].
  by rewrite !setitem_setitem.
Qed.

Lemma clean_age_column_idem df age_col out :
  age_col <> "Age_cleaned" -> age_col <> "AgeBin" ->
  data_processing.clean_age_column df age_col = Ok out ->
  data_processing.clean_age_column out age_col = Ok out.
Proof.
  intros Hc Hb. rewrite !clean_age_column_unfold.
  destruct (pd.getitem age_col df) as [age|e] eqn:Hage; [|done]. cbn [bind].
  destruct (pd.str_accessor age) as [l|e] eqn:Hl; [|done]. cbn [bind].
  intros [= <-].
  rewrite !getitem_setitem_ne, Hage by done. cbn [bind]. rewrite Hl. cbn [bind].
  f_equal.
  rewrite (setitem_getitem_id "Age_cleaned").
  - by rewrite setitem_setitem.
  - rewrite getitem_setitem_ne by done. apply getitem_setitem_same.
Qed.

(** C8: both cleaners are idempotent.  For every parser of numeric text,
    every table and every list of columns, normalizing the normalized table
    returns it unchanged; and whenever [clean_age_column] returns a table,
    applying it to that table returns the same table. *)
Theorem cleaners_idempotent :
  (forall parse df columns,
      data_processing.clean_numeric_columns parse
        (data_processing.clean_numeric_columns parse df columns) columns =
      data_processing.clean_numeric_columns parse df columns)
  /\ (forall df out,
        data_processing.clean_age_column df "Age" = Ok out ->
        data_processing.clean_age_column out "Age" = Ok out).
Proof.
  split; [apply clean_numeric_columns_idem|].
  intros df out. by apply clean_age_column_idem.
Qed.

Lemma cleaners_idempotent_witness :
  data_processing.clean_age_column (age_table_cleaned Missing) "Age" =
  Ok (age_table_cleaned Missing).
Proof.
  exact (proj2 cleaners_idempotent age_table (age_table_cleaned Missing) eq_refl).
Defined.

(** ** The two versions of the age binner and of the categoriser *)

Lemma astype_str_texts float_str s :
  pd.astype_str float_str s = pd.Obj (map Text (texts_of float_str s)).
Proof.
  destruct s as [l|l]; cbn; f_equal; rewrite map_map; [|done].
  apply map_ext. by intros [t|x|].
Qed.

Lemma standalone_clean_age_column_unfold float_str df age_col :
  standalone.clean_age_column float_str df age_col =
  (age <- pd.getitem age_col df ;;
   let l := map Text (texts_of float_str age) in
   Ok (pd.setitem "AgeBin"
         (pd.map_dict standalone.age_bin_map (pd.Obj (clean_cells l)))
         (pd.setitem "Age_cleaned" (pd.Obj (clean_cells l)) df))).
Proof.
  unfold standalone.clean_age_column, pd.str_replace, pd.str_strip.
  destruct (pd.getitem age_col df) as [age|e]; [|done]. cbn [bind].
  rewrite astype_str_texts, !getitem_setitem_same. cbn [bind].
  rewrite str_accessor_text. cbn [bind].
  rewrite !getitem_setitem_same. cbn [bind].
  rewrite !str_accessor_str_map. cbn [bind].
  rewrite !getitem_setitem_same. cbn [bind].
  rewrite !str_accessor_str_map. cbn [bind].
  rewrite !getitem_setitem_same. cbn [bind].
  by rewrite !setitem_setitem.
Qed.

(** The standalone binner returns a table whenever the age column exists,
    whatever the column holds. *)
Lemma standalone_clean_age_column_total float_str df age_col age :
  pd.getitem age_col df = Ok age ->
  exists out, standalone.clean_age_column float_str df age_col = Ok out.
Proof.
  intros Hage. rewrite standalone_clean_age_column_unfold, Hage. by eexists.
Qed.

(** A bin is the exact-match lookup of the cleaned text, missing when the
    text is no key of the table. *)
Lemma map_dict_lookup (d : gmap string cell) l :
  pd.map_dict d (pd.Obj l) =
  pd.Obj (map (fun c => match c with
                        | Text k => match d !! k with
                                    | Some bin => bin
                                    | None => Missing
                                    end
                        | _ => Missing
                        end) l).
Proof. reflexivity. Qed.

Lemma texts_of_text float_str (l : list string) :
  texts_of float_str (pd.Obj (map Text l)) = l.
Proof. induction l as [|t l IH]; [done|]. cbn in *. by rewrite IH. Qed.

(** On a column that holds text only, the two binners agree. *)
Lemma clean_age_column_agree_on_text float_str df age_col (l : list string) :
  pd.getitem age_col df = Ok (pd.Obj (map Text l)) ->
  standalone.clean_age_column float_str df age_col =
  data_processing.clean_age_column df age_col.
Proof.
  intros Hage. rewrite standalone_clean_age_column_unfold, clean_age_column_unfold, Hage.
  cbn [bind]. rewrite str_accessor_text. cbn [bind].
  by rewrite texts_of_text.
Qed.

(** On text and on the missing marker, the two categorisers agree. *)
Lemma categorize_company_agree float_str c :
  text_or_missing c ->
  standalone.categorize_company float_str c = data_processing.categorize_company c.
Proof. by destruct c. Qed.

(** The two normalizers are the same function. *)
Lemma clean_numeric_columns_agree parse df columns :
  standalone.clean_numeric_columns parse df columns =
  data_processing.clean_numeric_columns parse df columns.
Proof. reflexivity. Qed.

(** C5: [data_processing.clean_age_column] does not turn the values of the
    age column into text first.  On an age column of dtype float64 the
    [.str] accessor raises AttributeError, where the claim promises a result;
    on an object column a missing age stays missing in the cleaned column.
    The standalone version, which calls [astype(str)], returns a table in both
    cases, the missing age cleaned to the text "nan" and binned as missing;
    "Under 18 years old" is cleaned to "<18" and binned "<25", "65 or older"
    is binned "55+", "Prefer not to say" has a missing bin. *)
Theorem clean_age_column_without_coercion :
  data_processing.clean_age_column [("Age", pd.F64 [PrimFloat.nan; 25%float])] "Age" =
  Raise AttributeError
  /\ data_processing.clean_age_column age_table "Age" = Ok (age_table_cleaned Missing)
  /\ (forall float_str,
        exists out,
          standalone.clean_age_column float_str
            [("Age", pd.F64 [PrimFloat.nan; 25%float])] "Age" = Ok out)
  /\ (forall float_str,
        standalone.clean_age_column float_str age_table "Age" =
        Ok (age_table_cleaned (Text "nan"))).
Proof.
  split; [reflexivity|]. split; [vm_compute; reflexivity|]. split.
  - intros float_str. by eapply standalone_clean_age_column_total.
  - intros float_str. vm_compute. reflexivity.
Qed.

(** C9: the two versions of [clean_age_column] and of [categorize_company]
    differ where a value is not text.  A missing age is cleaned to the text
    "nan" by the standalone script and stays missing in [data_processing];
    a number as organisation size is categorised by the standalone script
    and raises AttributeError in [data_processing]. *)
Theorem standalone_differs_off_text :
  (forall float_str,
      data_processing.clean_age_column age_table "Age" <>
      standalone.clean_age_column float_str age_table "Age")
  /\ (forall float_str,
        data_processing.categorize_company (Num 500%float) = Raise AttributeError
        /\ exists category,
             standalone.categorize_company float_str (Num 500%float) = Ok category).
Proof.
  split.
  - intros float_str.
    assert (data_processing.clean_age_column age_table "Age" =
            Ok (age_table_cleaned Missing)) as -> by (vm_compute; reflexivity).
    assert (standalone.clean_age_column float_str age_table "Age" =
            Ok (age_table_cleaned (Text "nan"))) as -> by (vm_compute; reflexivity).
    discriminate.
  - intros float_str. split; [reflexivity|].
    unfold standalone.categorize_company. cbn [pd.isna].
    change (PrimFloat.is_nan 500%float) with false. cbv iota.
    repeat match goal with |- context [if ?b then _ else _] => destruct b end;
      by eexists.
Qed.

(** * Further properties of the code *)

(** ** The categoriser: what does not change the category *)

Lemma lower_char_space c : Py.is_space (Py.lower_char c) = Py.is_space c.
Proof. by destruct c as [[] [] [] [] [] [] [] []]. Qed.

Lemma all_space_lower ws : all_space (Py.lower ws) = all_space ws.
Proof.
  induction ws as [|c ws IH]; [done|]. cbn. by rewrite lower_char_space, IH.
Qed.

Lemma lstrip_all_space ws x : all_space ws = true -> Py.lstrip (ws +:+ x) = Py.lstrip x.
Proof.
  induction ws as [|c ws IH]; [done|]. cbn [all_space].
  intros [Hc Hws]%andb_true_iff. rewrite append_cons. cbn. rewrite Hc. by apply IH.
Qed.

Lemma lstrip_only_space ws : all_space ws = true -> Py.lstrip ws = "".
Proof.
  induction ws as [|c ws IH]; [done|]. cbn [all_space].
  intros [Hc Hws]%andb_true_iff. cbn. rewrite Hc. by apply IH.
Qed.

Lemma rstrip_only_space ws : all_space ws = true -> Py.rstrip ws = "".
Proof.
  induction ws as [|c ws IH]; [done|]. cbn [all_space].
  intros [Hc Hws]%andb_true_iff. cbn. by rewrite IH, Hc.
Qed.

Lemma rstrip_all_space x ws : all_space ws = true -> Py.rstrip (x +:+ ws) = Py.rstrip x.
Proof.
  intros Hws. induction x as [|c x IH].
  - rewrite append_nil_l. by apply rstrip_only_space.
  - rewrite append_cons. cbn. by rewrite IH.
Qed.

Lemma strip_padding ws1 x ws2 :
  all_space ws1 = true -> all_space ws2 = true ->
  Py.strip (ws1 +:+ x +:+ ws2) = Py.strip x.
Proof.
  intros H1 H2. unfold Py.strip. rewrite lstrip_all_space by done.
  induction x as [|c x IH].
  - rewrite append_nil_l. by rewrite lstrip_only_space.
  - rewrite append_cons. cbn. destruct (Py.is_space c); [done|].
    by rewrite <- append_cons, rstrip_all_space.
Qed.

(** X1: The category of a text depends on its letters up to case only, and
    whitespace around the text does not change it. *)
Theorem categorize_company_case_and_padding :
  (forall s s',
      Py.lower s = Py.lower s' ->
      data_processing.categorize_company (Text s) =
      data_processing.categorize_company (Text s'))
  /\ (forall ws1 s ws2,
        all_space ws1 = true -> all_space ws2 = true ->
        data_processing.categorize_company (Text (ws1 +:+ s +:+ ws2)) =
        data_processing.categorize_company (Text s)).
Proof.
  split.
  - intros s s' Hlow. unfold data_processing.categorize_company. cbn [pd.isna].
    by rewrite Hlow.
  - intros ws1 s ws2 H1 H2. unfold data_processing.categorize_company. cbn [pd.isna].
    rewrite !lower_app, strip_padding by (by rewrite all_space_lower). done.
Qed.

Lemma categorize_company_case_and_padding_witness :
  data_processing.categorize_company (Text "  11-50 EMPLOYEES ") =
  data_processing.categorize_company (Text "11-50 EMPLOYEES").
Proof.
  exact (proj2 categorize_company_case_and_padding "  " "11-50 EMPLOYEES" " "
           eq_refl eq_refl).
Defined.

Lemma contains_trans a b s :
  Py.contains a b = true -> Py.contains b s = true -> Py.contains a s = true.
Proof.
  intros (x & y & ->)%contains_app (u & v & ->)%contains_app.
  apply contains_app. exists (u +:+ x), (y +:+ v). by rewrite !append_assoc.
Qed.

(** X2: The needles "5000" and "5000+" of the "Enterprise" rule never decide:
    a text that contains one of them contains "500", so the rule is the
    same with "500" and "1000" alone. *)
Theorem categorize_company_enterprise_needles s :
  data_processing.categorize_company (Text s) =
  Ok (let t := Py.strip (Py.lower s) in
      if Py.any_in ["1-10"; "11-50"] t then "Startup"
      else if Py.any_in ["51-200"; "201-500"] t then "Mid-sized"
      else if Py.any_in ["500"; "1000"] t then "Enterprise"
      else "Other").
Proof.
  unfold data_processing.categorize_company. cbn [pd.isna]. cbv zeta.
  set (t := Py.strip (Py.lower s)).
  destruct (Py.any_in ["1-10"; "11-50"] t); [done|].
  destruct (Py.any_in ["51-200"; "201-500"] t); [done|].
  unfold Py.any_in. cbn [existsb]. rewrite !orb_false_r.
  destruct (Py.contains "500" t) eqn:H500; [done|].
  destruct (Py.contains "1000" t); [done|]. cbn [orb].
  assert (Py.contains "5000" t = false) as ->.
  { destruct (Py.contains "5000" t) eqn:H; [|done].
    by rewrite (contains_trans "500" "5000" t) in H500. }
  assert (Py.contains "5000+" t = false) as ->; [|done].
  destruct (Py.contains "5000+" t) eqn:H; [|done].
  by rewrite (contains_trans "500" "5000+" t) in H500.
Qed.

(** ** The tokenizer: order of rows, stacked columns, the inline loop *)

Lemma occurrences_cons tok r rows :
  occurrences tok (r :: rows) = occurrences tok [r] + occurrences tok rows.
Proof. unfold occurrences, list_sum. cbn [map fold_right]. lia. Qed.

Lemma occurrences_Permutation tok rows rows' :
  Permutation rows rows' -> occurrences tok rows = occurrences tok rows'.
Proof.
  induction 1 as [|r l l' _ IH|r r' l|l l' l'' _ IH1 _ IH2]; [done| | |congruence].
  - by rewrite (occurrences_cons tok r l), (occurrences_cons tok r l'), IH.
  - rewrite (occurrences_cons tok r' (r :: l)), (occurrences_cons tok r (r' :: l)),
      (occurrences_cons tok r l), (occurrences_cons tok r' l). lia.
Qed.

Lemma count_items_lookup rows tok :
  Counter (flat_map row_tokens (omap id rows)) !! tok =
  if String.eqb tok "" then None
  else match occurrences tok rows with 0 => None | S n => Some (S n) end.
Proof.
  rewrite Counter_lookup, flat_tokens_count. by destruct (String.eqb tok "").
Qed.

(** X3: The frequency table does not depend on the order of the rows. *)
Theorem count_items_row_order rows rows' :
  Permutation rows rows' ->
  data_processing.count_items (text_column rows) =
  data_processing.count_items (text_column rows').
Proof.
  intros Hp. rewrite !count_items_text. f_equal. apply map_eq. intros tok.
  by rewrite !count_items_lookup, (occurrences_Permutation tok rows rows').
Qed.

Lemma count_items_row_order_witness :
  data_processing.count_items (text_column [Some "Go;C"; None; Some "C"]) =
  data_processing.count_items (text_column [Some "C"; Some "Go;C"; None]).
Proof.
  apply count_items_row_order.
  apply (Permutation_cons_app [Some "C"] [None] (Some "Go;C")).
  apply Permutation_swap.
Defined.

Lemma occurrences_app tok a b :
  occurrences tok (a ++ b) = occurrences tok a + occurrences tok b.
Proof.
  induction a as [|r a IH]; [done|].
  rewrite <- app_comm_cons, (occurrences_cons tok r (a ++ b)),
    (occurrences_cons tok r a), IH. lia.
Qed.

(** X4: Counting two columns stacked on one another gives the sum of their two
    counters, which is what [Counter.update] with a counter computes. *)
Theorem count_items_stacked a b :
  exists ma mb,
    data_processing.count_items (text_column a) = Ok ma
    /\ data_processing.count_items (text_column b) = Ok mb
    /\ data_processing.count_items (text_column (a ++ b)) = Ok (Counter_add ma mb).
Proof.
  do 2 eexists. split; [apply count_items_text|]. split; [apply count_items_text|].
  rewrite count_items_text. f_equal. apply map_eq. intros tok.
  unfold Counter_add. rewrite lookup_union_with, !count_items_lookup, occurrences_app.
  destruct (String.eqb tok ""); [done|].
  destruct (occurrences tok a), (occurrences tok b); cbn; f_equal; lia.
Qed.

Lemma tech_counts_fold (texts : list string) (m : gmap string nat) :
  fold_left
    (fun acc tech_list =>
       tech_counts <- acc ;;
       match tech_list with
       | Text t =>
           Ok (Counter_update tech_counts
                 (List.filter (fun t => negb (String.eqb t ""))
                              (map Py.strip (Py.split ";" t))))
       | _ => Raise AttributeError
       end)
    (map Text texts) (Ok m) =
  Ok (Counter_update m (flat_map row_tokens texts)).
Proof.
  revert m. induction texts as [|t texts IH]; intros m; [done|].
  cbn [map fold_left bind flat_map]. rewrite IH. f_equal.
  unfold Counter_update. by rewrite fold_left_app.
Qed.

(** X5: On a column of text the counting loop of [plot_top_technologies]
    computes the counter of [count_items]; on a float64 column in which
    every value is missing the loop returns the empty counter, where
    [count_items] raises AttributeError. *)
Theorem tech_counts_and_count_items :
  (forall rows,
      visualization.tech_counts (text_column rows) =
      data_processing.count_items (text_column rows))
  /\ (forall l,
        (forall x, In x l -> PrimFloat.is_nan x = true) ->
        visualization.tech_counts (pd.F64 l) = Ok ∅
        /\ data_processing.count_items (pd.F64 l) = Raise AttributeError).
Proof.
  split.
  - intros rows. rewrite count_items_text. unfold visualization.tech_counts.
    rewrite dropna_text_column. cbn [series_values].
    by rewrite tech_counts_fold.
  - intros l Hl. split; [|reflexivity].
    unfold visualization.tech_counts. cbn [pd.dropna series_values].
    rewrite filter_none; [done|]. intros x Hx. by rewrite (Hl x Hx).
Qed.

Lemma tech_counts_and_count_items_witness :
  visualization.tech_counts (pd.F64 [PrimFloat.nan; PrimFloat.nan]) = Ok ∅
  /\ data_processing.count_items (pd.F64 [PrimFloat.nan; PrimFloat.nan]) =
     Raise AttributeError.
Proof.
  apply (proj2 tech_counts_and_count_items [PrimFloat.nan; PrimFloat.nan]).
  intros x [<-|[<-|[]]]; reflexivity.
Defined.

(** ** The exploder and the tokenizer *)

Lemma text_column_items (df : list pair_row) :
  Forall (fun r => text_or_missing (item r)) df ->
  pd.Obj (map item df) =
  text_column (map (fun r => match item r with Text t => Some t | _ => None end) df).
Proof.
  unfold text_column. intros H. f_equal. rewrite map_map.
  induction H as [|r df Hr _ IH]; [done|]. cbn. rewrite IH. f_equal.
  by destruct (item r).
Qed.

Lemma item_texts_map (n : nat) (k : cell) (toks : list string) :
  item_texts (map (fun tok => {| label := n; item := Text (Py.strip tok); key := k |}) toks) =
  map Py.strip toks.
Proof.
  unfold item_texts. induction toks as [|tok toks IH]; [done|].
  cbn. f_equal. exact IH.
Qed.

Lemma item_texts_exploded_row (r : pair_row) :
  pd.isna (key r) = false ->
  List.filter (fun t => negb (String.eqb t "")) (item_texts (exploded_rows r)) =
  flat_map row_tokens
    (omap id [match item r with Text t => Some t | _ => None end]).
Proof.
  intros Hr. unfold exploded_rows. rewrite Hr.
  destruct (item r) as [t| |]; [|done..].
  rewrite item_texts_map. cbn. by rewrite app_nil_r.
Qed.

Lemma exploded_tokens (df : list pair_row) :
  Forall (fun r => pd.isna (key r) = false) df ->
  List.filter (fun t => negb (String.eqb t "")) (item_texts (flat_map exploded_rows df)) =
  flat_map row_tokens
    (omap id (map (fun r => match item r with Text t => Some t | _ => None end) df)).
Proof.
  induction 1 as [|r df Hr _ IH]; [done|]. cbn [flat_map map].
  unfold item_texts in *. rewrite omap_app, List.filter_app, IH.
  fold (item_texts (exploded_rows r)). rewrite item_texts_exploded_row by done.
  rewrite <- flat_map_app. f_equal.
  by destruct (item r).
Qed.

(** X6: When no key is missing, the tokenizer counts exactly the non-empty
    tokens of the rows the exploder returns: the two differ by the empty
    tokens only. *)
Theorem explode_column_then_count (d : pd.dtype) (df out : list pair_row) :
  Forall (fun r => text_or_missing (item r)) df ->
  Forall (fun r => pd.isna (key r) = false) df ->
  data_processing.explode_column d df = Ok out ->
  data_processing.count_items (pd.column d (map item df)) =
  Ok (Counter (List.filter (fun t => negb (String.eqb t "")) (item_texts out))).
Proof.
  intros Htext Hkey. destruct d; [|by rewrite explode_column_float64].
  rewrite explode_column_text by done. intros [= <-]. cbn [pd.column].
  rewrite text_column_items, count_items_text by done.
  by rewrite exploded_tokens.
Qed.

Lemma explode_column_then_count_witness :
  data_processing.count_items
    (pd.Obj [Text "Go;; Rust "; Missing]) =
  Ok (Counter ["Go"; "Rust"]).
Proof.
  apply (explode_column_then_count pd.object
           [{| label := 0; item := Text "Go;; Rust "; key := Text "Chile" |};
            {| label := 1; item := Missing; key := Text "Peru" |}]
           [{| label := 0; item := Text "Go"; key := Text "Chile" |};
            {| label := 0; item := Text ""; key := Text "Chile" |};
            {| label := 0; item := Text "Rust"; key := Text "Chile" |}]);
    [repeat constructor | repeat constructor | reflexivity].
Defined.

(** ** The aggregator: order of the rows and the threshold *)

Lemma StronglySorted_map_filter {A B} (R : relation B) (g : A -> B) (f : A -> bool)
    (l : list A) :
  StronglySorted R (map g l) -> StronglySorted R (map g (List.filter f l)).
Proof.
  induction l as [|x l IH]; [done|]. cbn.
  intros [Hx Hl]%StronglySorted_cons. destruct (f x); [|by apply IH].
  cbn. apply StronglySorted_cons. split; [|by apply IH].
  apply Forall_forall. intros y (z & <- & [Hz _]%filter_In)%list_elem_of_In%in_map_iff.
  rewrite Forall_forall in Hx. apply Hx, list_elem_of_In, in_map_iff. by exists z.
Qed.

Lemma regional_countries df min_count :
  map r_Country (data_processing.create_regional_stats df min_count) =
  map r_Country
    (List.filter (fun r => (default 50 min_count <=? Z.of_nat (r_Count r))%Z)
       (map (fun c =>
               let g := group_rows df c in
               {| r_Country := c;
                  r_MedianCompensation := pd.median (map ConvertedCompYearly g);
                  r_MedianExperience := pd.median (map YearsCodePro g);
                  r_Count := pd.count (map ResponseId g);
                  r_MedianJobSat := pd.median (map JobSat g) |})
            (pd.group_keys (map Country df)))).
Proof. reflexivity. Qed.

(** X7: The rows of [create_regional_stats] come in ascending order of their
    country, whatever the order of the survey rows. *)
Theorem create_regional_stats_sorted df min_count :
  StronglySorted String.le
    (map r_Country (data_processing.create_regional_stats df min_count)).
Proof.
  rewrite regional_countries. apply StronglySorted_map_filter.
  rewrite map_map. cbn. rewrite map_id. apply StronglySorted_merge_sort; apply _.
Qed.

Lemma filter_filter_implies {A} (f g : A -> bool) (l : list A) :
  (forall x, g x = true -> f x = true) ->
  List.filter g (List.filter f l) = List.filter g l.
Proof.
  intros Hfg. induction l as [|x l IH]; [done|]. cbn.
  destruct (f x) eqn:Hf; cbn; [by rewrite IH|].
  destruct (g x) eqn:Hg; [|done]. by rewrite (Hfg x Hg) in Hf.
Qed.

(** X8: Raising the threshold only filters the table further: the statistics
    at [m2] are the rows of the statistics at a lower [m1] whose Count
    reaches [m2]; and with a threshold of zero or less every country of the
    table is reported. *)
Theorem create_regional_stats_threshold df :
  (forall m1 m2,
      (m1 <= m2)%Z ->
      data_processing.create_regional_stats df (Some m2) =
      List.filter (fun r => (m2 <=? Z.of_nat (r_Count r))%Z)
                  (data_processing.create_regional_stats df (Some m1)))
  /\ (forall m,
        (m <= 0)%Z ->
        map r_Country (data_processing.create_regional_stats df (Some m)) =
        pd.group_keys (map Country df)).
Proof.
  split.
  - intros m1 m2 Hle. unfold data_processing.create_regional_stats. cbn [from_option id].
    rewrite filter_filter_implies; [done|].
    intros r Hr%Z.leb_le. apply Z.leb_le. lia.
  - intros m Hm. unfold data_processing.create_regional_stats. cbn [from_option id].
    rewrite List.forallb_filter_id.
    + rewrite map_map. cbn. by rewrite map_id.
    + apply forallb_forall. intros r _. apply Z.leb_le. lia.
Qed.

Lemma create_regional_stats_threshold_witness :
  data_processing.create_regional_stats survey_two_countries (Some 2%Z) =
  List.filter (fun r => (2 <=? Z.of_nat (r_Count r))%Z)
              (data_processing.create_regional_stats survey_two_countries (Some 1%Z)).
Proof.
  apply (proj1 (create_regional_stats_threshold survey_two_countries) 1%Z 2%Z). lia.
Defined.

(** ** The joiner: which countries appear, and with which numbers *)

Lemma merge_left_fields left col_df j :
  In j (data_processing.merge_left left col_df) ->
  exists l, In l left
    /\ j_Country j = comp_Country l
    /\ j_MedianCompensation j = comp_MedianCompensation l
    /\ j_Count j = comp_Count l.
Proof.
  unfold data_processing.merge_left. intros (l & Hl & Hj)%in_flat_map.
  exists l. split; [done|].
  destruct (List.filter _ col_df) as [|c0 matches].
  - by destruct Hj as [<-|[]].
  - by apply in_map_iff in Hj as (c & <- & _).
Qed.

Lemma merge_comp_col_group survey_df col_df m :
  In m (data_processing.merge_comp_col survey_df col_df) ->
  m_MedianCompensation m =
    pd.median (map ConvertedCompYearly (group_rows survey_df (m_Country m)))
  /\ m_Count m = respondents (group_rows survey_df (m_Country m)).
Proof.
  unfold data_processing.merge_comp_col.
  intros (j & <- & [Hj _]%filter_In)%in_map_iff. cbn.
  apply merge_left_fields in Hj as (l & Hl & -> & -> & ->).
  unfold data_processing.median_comp_by_country in Hl.
  apply in_map_iff in Hl as (c & <- & _). cbn. by rewrite count_respondents.
Qed.

(** X9: For a country that both tables report, the joiner and the aggregator
    give the same median compensation and the same count. *)
Theorem merge_comp_col_agrees_with_regional_stats survey_df col_df min_count r m :
  In r (data_processing.create_regional_stats survey_df min_count) ->
  In m (data_processing.merge_comp_col survey_df col_df) ->
  m_Country m = r_Country r ->
  m_MedianCompensation m = r_MedianCompensation r /\ m_Count m = r_Count r.
Proof.
  intros (_ & Hr & _)%create_regional_stats_In [Hmed Hcount]%merge_comp_col_group Hc.
  rewrite Hmed, Hcount, Hc, Hr. done.
Qed.

Lemma merge_comp_col_agrees_with_regional_stats_witness :
  m_MedianCompensation (merged_chile 80 1250) = r_MedianCompensation regional_chile
  /\ m_Count (merged_chile 80 1250) = r_Count regional_chile.
Proof.
  exact (merge_comp_col_agrees_with_regional_stats survey_two_countries (col_chile 80)
           (Some 1%Z) regional_chile (merged_chile 80 1250)
           (or_introl eq_refl) (or_introl eq_refl) eq_refl).
Defined.

(** X10: Every country of the survey that has a row of the cost-of-living table
    with both indices present is in the merged table, with these indices,
    whatever its number of respondents. *)
Theorem merge_comp_col_complete survey_df col_df country c :
  In (Some country) (map Country survey_df) ->
  In c col_df ->
  col_Country c = Some country ->
  PrimFloat.is_nan (col_CostOfLivingPlusRentIndex c) = false ->
  PrimFloat.is_nan (col_LocalPurchasingPowerIndex c) = false ->
  exists m, In m (data_processing.merge_comp_col survey_df col_df)
    /\ m_Country m = country
    /\ m_CostOfLivingPlusRentIndex m = col_CostOfLivingPlusRentIndex c
    /\ m_LocalPurchasingPowerIndex m = col_LocalPurchasingPowerIndex c.
Proof.
  intros Hcountry Hc Hk H1 H2.
  set (l := {| comp_Country := country;
               comp_MedianCompensation :=
                 pd.median (map ConvertedCompYearly (group_rows survey_df country));
               comp_Count := pd.count (map ResponseId (group_rows survey_df country)) |}).
  set (j := {| j_Country := country;
               j_MedianCompensation := comp_MedianCompensation l;
               j_Count := comp_Count l;
               j_CostOfLivingPlusRentIndex := col_CostOfLivingPlusRentIndex c;
               j_LocalPurchasingPowerIndex := col_LocalPurchasingPowerIndex c |}).
  assert (In j (data_processing.merge_left
                  (data_processing.median_comp_by_country survey_df) col_df)) as Hj.
  { unfold data_processing.merge_left. apply in_flat_map. exists l. split.
    - unfold data_processing.median_comp_by_country. apply in_map_iff.
      exists country. split; [done|]. by apply group_keys_In.
    - assert (In c (List.filter (fun c => match col_Country c with
                                          | Some k => String.eqb k (comp_Country l)
                                          | None => false
                                          end) col_df)) as Hin.
      { apply filter_In. split; [done|]. rewrite Hk. apply String.eqb_refl. }
      destruct (List.filter _ col_df) as [|c0 matches]; [done|].
      apply in_map_iff. by exists c. }
  eexists. split.
  - unfold data_processing.merge_comp_col. apply in_map_iff. exists j.
    split; [reflexivity|]. apply filter_In. split; [done|]. cbn. by rewrite H1, H2.
  - done.
Qed.

Lemma merge_comp_col_complete_witness :
  exists m, In m (data_processing.merge_comp_col survey_two_countries (col_chile 80))
    /\ m_Country m = "Chile"
    /\ m_CostOfLivingPlusRentIndex m = 80%float
    /\ m_LocalPurchasingPowerIndex m = 50%float.
Proof.
  exact (merge_comp_col_complete survey_two_countries (col_chile 80) "Chile"
           {| col_Country := Some "Chile"; col_CostOfLivingPlusRentIndex := 80%float;
              col_LocalPurchasingPowerIndex := 50%float |}
           (or_introl eq_refl) (or_introl eq_refl) eq_refl eq_refl eq_refl).
Defined.

Lemma matches_at_most_one (col_df : list col_row) k :
  List.NoDup (omap col_Country col_df) ->
  length (List.filter (fun c => match col_Country c with
                                | Some k' => String.eqb k' k
                                | None => false
                                end) col_df) <= 1.
Proof.
  induction col_df as [|c col_df IH]; [cbn; lia|]. cbn [List.filter].
  destruct (col_Country c) as [k'|] eqn:Hc.
  - change (omap col_Country (c :: col_df))
      with (match col_Country c with Some y => y :: omap col_Country col_df
                                   | None => omap col_Country col_df end).
    rewrite Hc. intros [Hk' Hnd]%List.NoDup_cons_iff.
    destruct (String.eqb_spec k' k) as [->|Hne]; [|by apply IH].
    cbn [length]. rewrite filter_none; [done|].
    intros c' Hc'. destruct (col_Country c') as [k''|] eqn:Hc''; [|done].
    apply String.eqb_neq. intros ->. apply Hk', list_elem_of_In, list_elem_of_omap.
    exists c'. by rewrite <- list_elem_of_In in Hc'.
  - change (omap col_Country (c :: col_df))
      with (match col_Country c with Some y => y :: omap col_Country col_df
                                   | None => omap col_Country col_df end).
    rewrite Hc. by apply IH.
Qed.

Lemma NoDup_short {A} (l : list A) : length l <= 1 -> List.NoDup l.
Proof.
  destruct l as [|x [|y l]]; cbn; [constructor | | lia].
  intros _. constructor; [by intros [] | constructor].
Qed.

Lemma filter_length_bound {A} (f : A -> bool) (l : list A) :
  length (List.filter f l) <= length l.
Proof. induction l as [|x l IH]; [done|]. cbn. destruct (f x); cbn; lia. Qed.

Lemma merge_left_cons l left col_df :
  data_processing.merge_left (l :: left) col_df =
  data_processing.merge_left [l] col_df ++ data_processing.merge_left left col_df.
Proof. unfold data_processing.merge_left. cbn [flat_map]. by rewrite app_nil_r. Qed.

Lemma merge_left_unique left col_df (f : joined_row -> bool) :
  List.NoDup (map comp_Country left) ->
  List.NoDup (omap col_Country col_df) ->
  List.NoDup (map j_Country (List.filter f (data_processing.merge_left left col_df))).
Proof.
  intros Hleft Hcol. induction left as [|l left IH]; [constructor|].
  rewrite map_cons in Hleft. apply List.NoDup_cons_iff in Hleft as [Hl Hleft].
  rewrite merge_left_cons, List.filter_app, map_app. apply List.NoDup_app; [|by apply IH|].
  - apply NoDup_short. rewrite length_map.
    etrans; [apply filter_length_bound|].
    unfold data_processing.merge_left. cbn [flat_map]. rewrite app_nil_r.
    pose proof (matches_at_most_one col_df (comp_Country l) Hcol) as Hlen.
    destruct (List.filter _ col_df) as [|c0 matches]; [done|].
    by rewrite length_map.
  - intros k (j & <- & [Hj _]%filter_In)%in_map_iff
             (j' & Hk & [Hj' _]%filter_In)%in_map_iff.
    apply merge_left_fields in Hj as (l0 & [<-|[]] & Hc0 & _).
    apply merge_left_fields in Hj' as (l' & Hl' & Hc' & _).
    apply Hl, in_map_iff. exists l'. split; [congruence | done].
Qed.

(** X11: When the cost-of-living table has at most one row for a country, the
    merged table has at most one row for a country. *)
Theorem merge_comp_col_one_row_per_country survey_df col_df :
  List.NoDup (omap col_Country col_df) ->
  List.NoDup (map m_Country (data_processing.merge_comp_col survey_df col_df)).
Proof.
  intros Hcol. unfold data_processing.merge_comp_col. rewrite map_map. cbn.
  apply merge_left_unique; [|done].
  unfold data_processing.median_comp_by_country. rewrite map_map. cbn.
  rewrite map_id. apply group_keys_NoDup.
Qed.

Lemma merge_comp_col_one_row_per_country_witness :
  List.NoDup (map m_Country
                (data_processing.merge_comp_col survey_two_countries (col_chile 80))).
Proof.
  apply merge_comp_col_one_row_per_country.
  constructor; [by intros [] | constructor].
Defined.

(** ** The top-N filter: how many countries, and applying it twice *)

Lemma value_counts_countries l c :
  In c (map fst (pd.value_counts l)) <-> In (Some c) l.
Proof.
  unfold pd.value_counts. set (vals := omap id l).
  set (counted := map _ (pd.unique vals)).
  assert (map fst counted = pd.unique vals) as Hfst.
  { subst counted. rewrite map_map. cbn. apply map_id. }
  rewrite <- omap_id_In. fold vals. rewrite <- (unique_In c vals), <- Hfst.
  split; apply Permutation_in, Permutation_map.
  - apply merge_sort_Permutation.
  - symmetry. apply merge_sort_Permutation.
Qed.

Lemma value_counts_length l :
  length (pd.value_counts l) = length (pd.unique (omap id l)).
Proof.
  unfold pd.value_counts. rewrite merge_sort_Permutation. apply length_map.
Qed.

Lemma top_countries_length (df : list survey_row) n :
  (0 <= n)%Z ->
  length (map fst (pd.head n (pd.value_counts (map Country df)))) <= Z.to_nat n.
Proof.
  intros Hn. unfold pd.head. rewrite (proj2 (Z.leb_le 0 n)) by done.
  rewrite length_map, length_take. lia.
Qed.

Lemma filter_top_countries_In df n r :
  In r (data_processing.filter_top_countries df n) <->
  In r df /\ exists c, Country r = Some c
    /\ In c (map fst (pd.head n (pd.value_counts (map Country df)))).
Proof.
  unfold data_processing.filter_top_countries. rewrite filter_In. split.
  - intros [Hr Hkeep]. split; [done|]. destruct (Country r) as [c|]; [|done].
    exists c. split; [done|].
    by apply existsb_exists in Hkeep as (c' & Hc' & ->%String.eqb_eq).
  - intros [Hr (c & -> & Hc)]. split; [done|]. apply existsb_exists.
    exists c. by rewrite String.eqb_refl.
Qed.

Lemma kept_countries_bound df n :
  (0 <= n)%Z ->
  length (pd.unique (omap id (map Country (data_processing.filter_top_countries df n))))
  <= Z.to_nat n.
Proof.
  intros Hn. etrans; [|by apply (top_countries_length df)].
  apply List.NoDup_incl_length; [apply unique_NoDup|].
  intros c Hc%unique_In%omap_id_In%in_map_iff. destruct Hc as (r & Hc & Hr).
  apply filter_top_countries_In in Hr as (_ & c' & Hc' & Htop). congruence.
Qed.

(** X12: For [n >= 0] the filtered table holds rows of at most [n] countries,
    and filtering it again with the same [n] changes nothing. *)
Theorem filter_top_countries_twice df n :
  (0 <= n)%Z ->
  length (pd.unique (omap id (map Country (data_processing.filter_top_countries df n))))
  <= Z.to_nat n
  /\ data_processing.filter_top_countries (data_processing.filter_top_countries df n) n =
     data_processing.filter_top_countries df n.
Proof.
  intros Hn. split; [by apply kept_countries_bound|].
  set (out := data_processing.filter_top_countries df n).
  unfold data_processing.filter_top_countries at 1.
  apply List.forallb_filter_id, forallb_forall. intros r Hr.
  pose proof Hr as (_ & c & Hc & _)%filter_top_countries_In. rewrite Hc.
  apply existsb_exists. exists c. split; [|apply String.eqb_refl].
  unfold pd.head. rewrite (proj2 (Z.leb_le 0 n)) by done.
  rewrite take_ge.
  - apply value_counts_countries. rewrite <- Hc. by apply in_map.
  - rewrite value_counts_length. by apply kept_countries_bound.
Qed.

Lemma filter_top_countries_twice_witness :
  length (pd.unique (omap id (map Country
            (data_processing.filter_top_countries survey_three_countries 2))))
  <= Z.to_nat 2
  /\ data_processing.filter_top_countries
       (data_processing.filter_top_countries survey_three_countries 2) 2 =
     data_processing.filter_top_countries survey_three_countries 2.
Proof. apply filter_top_countries_twice. lia. Defined.

(** ** The normalizer: what happens to each column *)

Lemma getitem_Ok_name c df s : pd.getitem c df = Ok s -> In c (map fst df).
Proof.
  induction df as [|[name s0] df IH]; [done|]. cbn.
  destruct (String.eqb_spec name c) as [->|Hne]; [by left | right; by apply IH].
Qed.

Lemma setitem_names c v df :
  In c (map fst df) -> map fst (pd.setitem c v df) = map fst df.
Proof.
  induction df as [|[name s0] df IH]; [done|]. cbn.
  destruct (String.eqb_spec name c) as [->|Hne]; [done|].
  intros [Hc|Hc]; [done|]. cbn. by rewrite IH.
Qed.

Lemma clean_numeric_columns_names parse df columns :
  map fst (data_processing.clean_numeric_columns parse df columns) = map fst df.
Proof.
  unfold data_processing.clean_numeric_columns.
  generalize (default data_processing.default_columns columns). intros cols.
  assert (forall acc, map fst acc = map fst df ->
            map fst (fold_left
                       (fun df_cleaned col =>
                          match pd.getitem col df with
                          | Ok s => pd.setitem col (pd.to_numeric parse s) df_cleaned
                          | Raise _ => df_cleaned
                          end) cols acc) = map fst df) as H; [|by apply H].
  induction cols as [|col cols IH]; intros acc Hacc; [done|].
  cbn [fold_left]. apply IH.
  destruct (pd.getitem col df) as [s|e] eqn:Hcol; [|done].
  rewrite setitem_names; [done|]. rewrite Hacc. by eapply getitem_Ok_name.
Qed.

(** X13: [clean_numeric_columns] keeps the columns of the table and their order.
    A listed column that the table has is replaced by its numeric coercion,
    which has the same number of rows and holds no text; a listed column
    that is float64 already is left as it is, and so is every column that
    is not listed; a listed name that is no column of the table adds no
    column. *)
Theorem clean_numeric_columns_columns parse df columns :
  let out := data_processing.clean_numeric_columns parse df columns in
  let listed := default data_processing.default_columns columns in
  map fst out = map fst df
  /\ (forall c s, In c listed -> pd.getitem c df = Ok s ->
        pd.getitem c out = Ok (pd.to_numeric parse s)
        /\ length (series_values (pd.to_numeric parse s)) = length (series_values s)
        /\ Forall (fun v => match v with Text _ => False | _ => True end)
                  (series_values (pd.to_numeric parse s)))
  /\ (forall c l, In c listed -> pd.getitem c df = Ok (pd.F64 l) ->
        pd.getitem c out = Ok (pd.F64 l))
  /\ (forall c, ~ In c listed -> pd.getitem c out = pd.getitem c df)
  /\ (forall c, pd.getitem c df = Raise KeyError -> pd.getitem c out = Raise KeyError).
Proof.
  cbv zeta. split; [apply clean_numeric_columns_names|].
  unfold data_processing.clean_numeric_columns.
  set (listed := default data_processing.default_columns columns).
  assert (forall c s, In c listed -> pd.getitem c df = Ok s ->
            pd.getitem c
              (fold_left (fun df_cleaned col =>
                            match pd.getitem col df with
                            | Ok s => pd.setitem col (pd.to_numeric parse s) df_cleaned
                            | Raise _ => df_cleaned
                            end) listed df) = Ok (pd.to_numeric parse s)) as Hlisted.
  { intros c s Hc Hs. rewrite getitem_normalized, Hs.
    assert (existsb (String.eqb c) listed = true) as ->; [|done].
    apply existsb_exists. exists c. by rewrite String.eqb_refl. }
  split; [|split; [|split]].
  - intros c s Hc Hs. split; [by apply Hlisted|].
    destruct s as [l|l]; cbn; rewrite ?length_map; (split; [done|]).
    all: apply Forall_forall; by intros v (x & <- & _)%list_elem_of_In%in_map_iff.
  - intros c l Hc Hs. by rewrite (Hlisted c (pd.F64 l)).
  - intros c Hc. rewrite getitem_normalized.
    assert (existsb (String.eqb c) listed = false) as ->.
    { apply not_true_is_false. intros (c' & Hc' & ->%String.eqb_eq)%existsb_exists. done. }
    by destruct (pd.getitem c df).
  - intros c Hc. by rewrite getitem_normalized, Hc.
Qed.

Lemma clean_numeric_columns_columns_witness :
  pd.getitem "JobSat"
    (data_processing.clean_numeric_columns (fun _ => None)
       [("JobSat", pd.Obj [Text "n/a"; Num 7%float; Missing])] None) =
  Ok (pd.to_numeric (fun _ => None) (pd.Obj [Text "n/a"; Num 7%float; Missing]))
  /\ length (series_values
               (pd.to_numeric (fun _ => None) (pd.Obj [Text "n/a"; Num 7%float; Missing]))) =
     3
  /\ Forall (fun v => match v with Text _ => False | _ => True end)
            (series_values
               (pd.to_numeric (fun _ => None) (pd.Obj [Text "n/a"; Num 7%float; Missing]))).
Proof.
  apply (proj1 (proj2 (clean_numeric_columns_columns (fun _ => None)
                         [("JobSat", pd.Obj [Text "n/a"; Num 7%float; Missing])] None))
           "JobSat" (pd.Obj [Text "n/a"; Num 7%float; Missing])).
  - cbn. tauto.
  - reflexivity.
Defined.

(** ** The age binner: what it adds and what it leaves *)

Lemma age_bin_map_range k v :
  data_processing.age_bin_map !! k = Some v ->
  v = Missing \/ exists bin, v = Text bin /\ In bin age_bins.
Proof.
  unfold data_processing.age_bin_map. intros H%elem_of_list_to_map_2.
  repeat (apply elem_of_cons in H as [[= _ ->]|H];
          [first [by left | right; eexists; split; [reflexivity | cbn; tauto]]|]).
  by apply elem_of_nil in H.
Qed.

Lemma str_map_length f l : length (pd.str_map f l) = length l.
Proof. apply length_map. Qed.

Lemma str_accessor_values s l : pd.str_accessor s = Ok l -> series_values s = l.
Proof.
  destruct s as [l0|l0]; cbn; [|done]. by destruct (_ || _); [intros [= ->]|].
Qed.

(** X14: When [clean_age_column] returns a table, every column other than
    "Age_cleaned" and "AgeBin" is the column of the input; the two derived
    columns are object columns with one cell per row of the age column; and
    every bin is missing or one of the five labels. *)
Theorem clean_age_column_frame df age_col age out :
  pd.getitem age_col df = Ok age ->
  data_processing.clean_age_column df age_col = Ok out ->
  (forall c, c <> "Age_cleaned" -> c <> "AgeBin" -> pd.getitem c out = pd.getitem c df)
  /\ exists cleaned bins,
       pd.getitem "Age_cleaned" out = Ok (pd.Obj cleaned)
       /\ pd.getitem "AgeBin" out = Ok (pd.Obj bins)
       /\ length cleaned = length (series_values age)
       /\ length bins = length (series_values age)
       /\ Forall (fun b => b = Missing \/ exists bin, b = Text bin /\ In bin age_bins) bins.
Proof.
  intros Hage. rewrite clean_age_column_unfold, Hage. cbn [bind].
  destruct (pd.str_accessor age) as [l|e] eqn:Hl; [|done]. cbn [bind].
  intros [= <-]. apply str_accessor_values in Hl as ->. split.
  - intros c Hc Hb. by rewrite !getitem_setitem_ne.
  - do 2 eexists. split; [|split; [|split; [|split]]].
    + rewrite getitem_setitem_ne by done. apply getitem_setitem_same.
    + rewrite getitem_setitem_same. reflexivity.
    + unfold clean_cells. by rewrite !str_map_length.
    + unfold clean_cells. by rewrite length_map, !str_map_length.
    + apply Forall_forall. intros b (c & <- & _)%list_elem_of_In%in_map_iff.
      destruct c as [k| |]; [|by left..].
      destruct (data_processing.age_bin_map !! k) as [v|] eqn:Hk; [|by left].
      cbn. by eapply age_bin_map_range.
Qed.

Lemma clean_age_column_frame_witness :
  (forall c, c <> "Age_cleaned" -> c <> "AgeBin" ->
             pd.getitem c (age_table_cleaned Missing) = pd.getitem c age_table)
  /\ exists cleaned bins,
       pd.getitem "Age_cleaned" (age_table_cleaned Missing) = Ok (pd.Obj cleaned)
       /\ pd.getitem "AgeBin" (age_table_cleaned Missing) = Ok (pd.Obj bins)
       /\ length cleaned = 5
       /\ length bins = 5
       /\ Forall (fun b => b = Missing \/ exists bin, b = Text bin /\ In bin age_bins) bins.
Proof.
  exact (clean_age_column_frame age_table "Age" _ (age_table_cleaned Missing)
           eq_refl eq_refl).
Defined.

(** ** The two categorisers on every kind of value *)

(** X15: The module's [categorize_company] raises exactly on a number that is
    not missing; the standalone one never raises; and whatever either one
    returns is one of the five categories. *)
Theorem categorize_company_raises_on_numbers :
  (forall c,
      data_processing.categorize_company c = Raise AttributeError <->
      exists x, c = Num x /\ PrimFloat.is_nan x = false)
  /\ (forall float_str c, exists category,
        standalone.categorize_company float_str c = Ok category
        /\ In category company_categories)
  /\ (forall c category,
        data_processing.categorize_company c = Ok category ->
        In category company_categories).
Proof.
  split; [|split].
  - intros c. unfold data_processing.categorize_company. split.
    + destruct c as [s|x|]; cbn [pd.isna]; [| |done].
      * repeat match goal with |- context [if ?b then _ else _] => destruct b end; done.
      * destruct (PrimFloat.is_nan x) eqn:Hx; [done|]. intros _. by exists x.
    + intros (x & -> & Hx). cbn [pd.isna]. by rewrite Hx.
  - intros float_str c. unfold standalone.categorize_company.
    repeat match goal with |- context [if ?b then _ else _] => destruct b end;
      eexists; (split; [reflexivity | cbn; tauto]).
  - intros c category. unfold data_processing.categorize_company.
    destruct (pd.isna c); [intros [= <-]; cbn; tauto|].
    destruct c as [s|x|]; [|done..].
    repeat match goal with |- context [if ?b then _ else _] => destruct b end;
      intros [= <-]; cbn; tauto.
Qed.

Lemma categorize_company_raises_on_numbers_witness :
  In "Startup" company_categories.
Proof.
  exact (proj2 (proj2 categorize_company_raises_on_numbers)
           (Text "1-10 employees") "Startup" eq_refl).
Defined.

(** ** Loading the survey table *)





(** ** The two cleaning steps of the standalone script, in either order *)

Lemma setitem_comm c a v w df s :
  c <> a -> pd.getitem c df = Ok s ->
  pd.setitem c v (pd.setitem a w df) = pd.setitem a w (pd.setitem c v df).
Proof.
  intros Hne. induction df as [|[name s0] df IH]; [done|]. cbn.
  destruct (String.eqb_spec name c) as [->|Hc].
  - intros _. rewrite (proj2 (String.eqb_neq c a)) by done. cbn.
    by rewrite String.eqb_refl, (proj2 (String.eqb_neq c a)).
  - intros Hget. destruct (String.eqb_spec name a) as [->|Ha]; cbn.
    + by rewrite (proj2 (String.eqb_neq a c)), String.eqb_refl.
    + rewrite (proj2 (String.eqb_neq name c)), (proj2 (String.eqb_neq name a)) by done.
      by rewrite IH.
Qed.

Lemma normalize_after_setitem parse a w (df : pd.DataFrame) columns acc :
  (forall col, In col columns -> col <> a) ->
  (forall col s, In col columns -> pd.getitem col df = Ok s ->
                 exists s', pd.getitem col acc = Ok s') ->
  fold_left (fun df_cleaned col =>
               match pd.getitem col (pd.setitem a w df) with
               | Ok s => pd.setitem col (pd.to_numeric parse s) df_cleaned
               | Raise _ => df_cleaned
               end) columns (pd.setitem a w acc) =
  pd.setitem a w
    (fold_left (fun df_cleaned col =>
                  match pd.getitem col df with
                  | Ok s => pd.setitem col (pd.to_numeric parse s) df_cleaned
                  | Raise _ => df_cleaned
                  end) columns acc).
Proof.
  revert acc. induction columns as [|col columns IH]; intros acc Hne Hacc; [done|].
  cbn [fold_left]. rewrite getitem_setitem_ne by (apply not_eq_sym, Hne; by left).
  destruct (pd.getitem col df) as [s|e] eqn:Hcol.
  - destruct (Hacc col s) as [s' Hs']; [by left | done |].
    rewrite (setitem_comm col a _ w acc s') by (done || apply Hne; by left).
    apply IH; [intros c Hc; apply Hne; by right|].
    intros c s0 Hc Hs0. destruct (String.eqb_spec col c) as [->|Hcc].
    + rewrite getitem_setitem_same. by eexists.
    + rewrite getitem_setitem_ne by done. apply (Hacc c s0); [by right | done].
  - apply IH; [intros c Hc; apply Hne; by right|].
    intros c s0 Hc. apply Hacc. by right.
Qed.

Lemma clean_numeric_columns_setitem parse a w df :
  ~ In a standalone.default_columns ->
  standalone.clean_numeric_columns parse (pd.setitem a w df) None =
  pd.setitem a w (standalone.clean_numeric_columns parse df None).
Proof.
  intros Ha. unfold standalone.clean_numeric_columns. cbn [default].
  apply normalize_after_setitem.
  - intros col Hcol ->. done.
  - intros col s _ Hs. by exists s.
Qed.

(** X17: The standalone script normalizes the numeric columns and then bins the
    age; binning first and normalizing afterwards gives the same table, and
    fails in the same cases. *)
Theorem cleaning_steps_commute float_str parse df :
  standalone.clean_age_column float_str
    (standalone.clean_numeric_columns parse df None) "Age" =
  (out <- standalone.clean_age_column float_str df "Age" ;;
   Ok (standalone.clean_numeric_columns parse out None)).
Proof.
  rewrite !standalone_clean_age_column_unfold.
  assert (pd.getitem "Age" (standalone.clean_numeric_columns parse df None) =
          pd.getitem "Age" df) as ->.
  { unfold standalone.clean_numeric_columns. cbn [default].
    rewrite getitem_normalized. by destruct (pd.getitem "Age" df). }
  destruct (pd.getitem "Age" df) as [age|e]; [|done]. cbn [bind]. f_equal.
  rewrite !clean_numeric_columns_setitem; [done| |].
  - cbn. intros H. by repeat destruct H as [H|H].
  - cbn. intros H. by repeat destruct H as [H|H].
Qed.

(** ** The exploder: how many rows *)

Lemma split_length sep t : length (Py.split sep t) = S (count_char sep t).
Proof.
  induction t as [|c t IH]; [done|]. cbn.
  destruct (Ascii.eqb c sep); cbn; [by rewrite IH|].
  pose proof (split_nonempty sep t). destruct (Py.split sep t); [done|].
  cbn in *. lia.
Qed.

Lemma exploded_rows_length (r : pair_row) :
  length (exploded_rows r) =
  match item r with
  | Text t => if pd.isna (key r) then 0 else S (count_char ";" t)
  | _ => 0
  end.
Proof.
  unfold exploded_rows. destruct (item r) as [t| |]; [|done..].
  destruct (pd.isna (key r)); [done|]. by rewrite length_map, split_length.
Qed.

(** X18: On a table whose delimited column holds text or missing values, a row
    with both cells present is exploded into one more row than its text has
    semicolons, and the other rows into none. *)
Theorem explode_column_row_count (d : pd.dtype) (df out : list pair_row) :
  Forall (fun r => text_or_missing (item r)) df ->
  data_processing.explode_column d df = Ok out ->
  length out =
  list_sum (map (fun r => match item r with
                          | Text t => if pd.isna (key r) then 0 else S (count_char ";" t)
                          | _ => 0
                          end) df).
Proof.
  intros Htext. destruct d; [|by rewrite explode_column_float64].
  rewrite explode_column_text by done. intros [= <-].
  clear Htext. induction df as [|r df IH]; [done|].
  cbn [flat_map map]. rewrite length_app, IH, exploded_rows_length.
  unfold list_sum. cbn [fold_right]. done.
Qed.

Lemma explode_column_row_count_witness :
  length [{| label := 7; item := Text "Go"; key := Text "Chile" |};
          {| label := 7; item := Text ""; key := Text "Chile" |};
          {| label := 7; item := Text "Rust"; key := Text "Chile" |}] = 3.
Proof.
  apply (explode_column_row_count pd.object
           [{| label := 7; item := Text "Go;; Rust "; key := Text "Chile" |};
            {| label := 8; item := Text "C;D"; key := Missing |}]);
    [repeat constructor | reflexivity].
Defined.
